(** * Ultra.Sampler load-time shim: the scoped TMPDIR redirector

    A shallow embedding of [set_temporary_tmpdir] and [ultra_sampler_boot]
    as they are written in [ultra_sampler_hook.cpp] and
    [ultra_sampler_indirect.cpp], together with the properties of the
    redirector that are established (or refuted) on that embedding.

    Conventions of the embedding:
    - a C string is a [string] without its terminating NUL; the terminator
      is accounted for wherever the code reads or sizes a buffer;
    - [size_t] is a 64-bit unsigned integer, modelled as [Z] with the
      wrap-around written out ([wrap]);
    - the process environment is a finite map from names to values, the
      file system a finite map from directory paths to permission bits;
    - a pointer obtained from [getenv] is followed through the calls that
      may overwrite or release the string it designates ([held]);
    - the calls into libc ([getenv], [malloc], [snprintf], [mkdir],
      [setenv], [printf]) are operations of a small state monad whose
      computations may leave the function early ([return]), be unwound by
      the callback, or run into undefined behaviour. *)

From Stdlib Require Import ZArith Lia Ascii String DecimalString.
From stdpp Require Import base option list gmap strings.

Local Open Scope Z_scope.

(** ** C strings and [size_t] arithmetic *)

Definition size_bits : Z := 64.
Definition size_modulus : Z := 2 ^ size_bits.

(** Reduction of an integer to the range of [size_t]. *)
Definition wrap (z : Z) : Z := z mod size_modulus.

Definition size_add (a b : Z) : Z := wrap (a + b).
Definition size_sub (a b : Z) : Z := wrap (a - b).

Definition strlen (s : string) : Z := Z.of_nat (String.length s).

Definition NUL : ascii := Ascii.zero.

(** [char_at s i] is the byte read by the C expression [s[i]]: a character
    of the string, its terminator at index [strlen s], and nothing at all
    beyond the object. *)
Definition char_at (s : string) (i : Z) : option ascii :=
  if i <? strlen s then String.get (Z.to_nat i) s
  else if i =? strlen s then Some NUL
  else None.

(** The first [n] characters of [s] (all of [s] when it is shorter). *)
Fixpoint str_take (n : nat) (s : string) : string :=
  match n, s with
  | O, _ => EmptyString
  | S _, EmptyString => EmptyString
  | S n', String c r => String c (str_take n' r)
  end.

(** Arguments of the printf family that the sources use. *)
Inductive Arg : Type :=
  | ArgS (s : string)
  | ArgD (z : Z).

Definition decimal (z : Z) : string := NilEmpty.string_of_int (Z.to_int z).

(** Expansion of a format string restricted to the conversions [%s] and
    [%d]; a conversion without a matching argument has no defined result. *)
Fixpoint vformat (fmt : string) (args : list Arg) : option string :=
  match fmt with
  | EmptyString => Some EmptyString
  | String "%" (String "s" rest) =>
      match args with
      | ArgS s :: args' => String.append s <$> vformat rest args'
      | _ => None
      end
  | String "%" (String "d" rest) =>
      match args with
      | ArgD z :: args' => String.append (decimal z) <$> vformat rest args'
      | _ => None
      end
  | String c rest => String c <$> vformat rest args
  end.

(** [snprintf buf n fmt ...]: at most [n - 1] characters of the expansion
    are stored, followed by the terminator. With [n = 0] nothing is stored
    and the buffer stays indeterminate. *)
Definition snprintf (n : Z) (fmt : string) (args : list Arg) : option string :=
  if n =? 0 then None
  else str_take (Z.to_nat (n - 1)) <$> vformat fmt args.

(** ** The process and its operating system *)

(** The values of [errno] that matter here; [ENONE] is the zero that
    [errno] holds before any call failed. *)
Inductive Errno : Type :=
  | ENONE | EEXIST | EACCES | ENOENT | ENOTDIR | ENOSPC | ENAMETOOLONG
  | EROFS | ENOMEM | EINVAL | EIO.

#[global] Instance Errno_eq_dec : EqDecision Errno.
Proof. solve_decision. Defined.

(** What has become of the string that a pointer obtained from [getenv]
    designates. The library may leave it as it was, write the new value of
    the variable over it, or release it, whenever the variable is assigned;
    POSIX allows all three. *)
Inductive Held : Type :=
  | Intact        (** it still holds the value it was obtained for *)
  | Overwritten   (** it holds the value assigned since *)
  | Released.     (** it may not be read any more *)

(** What the routine can see and change of its process: the environment,
    the directories of the file system, [errno], the process id, the file
    mode creation mask and the state of the string that the routine holds
    a pointer to; and how the system answers the requests that may fail.
    The answers are part of the state, so a callback is free to change
    them. *)
Record Sys : Type := mkSys {
  env : gmap string string;
  dirs : gmap string Z;
  errno : Errno;
  pid : Z;
  (** the permission bits that are withheld from what is created *)
  umask : Z;
  (** the state of the string obtained from [getenv] before *)
  held : Held;
  (** does an allocation of that many bytes succeed *)
  malloc_ok : Z -> bool;
  (** the error, if any, that creating a not yet existing path runs into *)
  mkdir_fault : string -> option Errno;
  (** the error, if any, that defining [name] as [value] runs into *)
  setenv_fault : string -> string -> option Errno;
  (** what defining [name] as [value] does to the string that held the
      value of [name] so far *)
  setenv_keeps : string -> string -> Held
}.

Definition with_env (m : gmap string string) (s : Sys) : Sys :=
  mkSys m (dirs s) (errno s) (pid s) (umask s) (held s)
        (malloc_ok s) (mkdir_fault s) (setenv_fault s) (setenv_keeps s).
Definition with_dirs (d : gmap string Z) (s : Sys) : Sys :=
  mkSys (env s) d (errno s) (pid s) (umask s) (held s)
        (malloc_ok s) (mkdir_fault s) (setenv_fault s) (setenv_keeps s).
Definition with_errno (e : Errno) (s : Sys) : Sys :=
  mkSys (env s) (dirs s) e (pid s) (umask s) (held s)
        (malloc_ok s) (mkdir_fault s) (setenv_fault s) (setenv_keeps s).
Definition with_held (h : Held) (s : Sys) : Sys :=
  mkSys (env s) (dirs s) (errno s) (pid s) (umask s) h
        (malloc_ok s) (mkdir_fault s) (setenv_fault s) (setenv_keeps s).

(** A callback (a pointer to a [void] function without arguments) either
    returns, or ends abnormally (throws, exits, jumps away): in both cases
    it leaves a system state behind. What it has done to the string that
    the routine holds a pointer to shows in [held]. *)
Inductive CbResult : Type :=
  | CbReturn (s : Sys)
  | CbAbort (s : Sys).

Definition Callback : Type := Sys -> CbResult.

(** What an observer of one call can see, in the order it happens. *)
Inductive Event : Type :=
  | EvMalloc (size : Z) (ok : bool)
  | EvMkdir (path : string) (mode : Z) (result : option Errno)
  | EvSetenv (name value : string) (ok : bool)
  | EvCall (at_entry : Sys)
  | EvPrintf (text : string).

(** How control leaves the routine. *)
Inductive Outcome : Type :=
  | Returned    (** by [return] or by reaching the end of the body *)
  | Unwound     (** the callback ended abnormally; the rest of the body never ran *)
  | Undefined.  (** the body read memory it must not read *)

(** ** The monad of the routine's body *)

Inductive Step (A : Type) : Type :=
  | Next (a : A) (s : Sys) (tr : list Event)
  | Leave (o : Outcome) (s : Sys) (tr : list Event).
Arguments Next {A} a s tr.
Arguments Leave {A} o s tr.

Definition M (A : Type) : Type := Sys -> list Event -> Step A.

Definition ret {A} (a : A) : M A := fun s tr => Next a s tr.

Definition bind {A B} (m : M A) (k : A -> M B) : M B :=
  fun s tr =>
    match m s tr with
    | Next a s' tr' => k a s' tr'
    | Leave o s' tr' => Leave o s' tr'
    end.

Declare Scope shim_scope.
Delimit Scope shim_scope with shim.
Notation "x <- m ;; k" := (bind m (fun x => k))
  (at level 100, m at next level, right associativity) : shim_scope.
Notation "m ;;; k" := (bind m (fun _ => k))
  (at level 100, right associativity) : shim_scope.
Local Open Scope shim_scope.

(** The C statement [return;]. *)
Definition return_ {A} : M A := fun s tr => Leave Returned s tr.

(** A value that the C standard leaves undefined ends the computation. *)
Definition defined {A} (o : option A) : M A :=
  fun s tr =>
    match o with
    | Some a => Next a s tr
    | None => Leave Undefined s tr
    end.

Definition emit (e : Event) : M unit := fun s tr => Next tt s (tr ++ [e]).
Definition get {A} (f : Sys -> A) : M A := fun s tr => Next (f s) s tr.
Definition modify (f : Sys -> Sys) : M unit := fun s tr => Next tt (f s) tr.

(** Running a body to the point where control leaves the function. *)
Definition run (m : M unit) (s : Sys) : Outcome * Sys * list Event :=
  match m s [] with
  | Next _ s' tr => (Returned, s', tr)
  | Leave o s' tr => (o, s', tr)
  end.

(** ** The libc calls of the sources *)

(** [getenv name] answers with a pointer into the environment, or with
    NULL. The result is the string that the pointer designates at the time
    of the call. It may be read as such until the variable is assigned;
    from then on it has to be read through [string_at]. *)
Definition getenv (name : string) : M (option string) :=
  get (fun s => env s !! name).

(** What a pointer obtained from [getenv] designates in the state [h]: the
    value it was [obtained] for, the value [assigned] to the variable
    since, or nothing that may be read. *)
Definition pointee (h : Held) (obtained assigned : string) : option string :=
  match h with
  | Intact => Some obtained
  | Overwritten => Some assigned
  | Released => None
  end.

(** Reading, after the variable has been [assigned], the string behind a
    pointer [obtained] from [getenv] before. *)
Definition string_at (obtained assigned : string) : M string :=
  h <- get held;;
  defined (pointee h obtained assigned).

(** [malloc] answers with a pointer; all the sources do with it is test it
    against NULL, fill it once and free it, so the pointer is modelled by
    that test. *)
Definition malloc (size : Z) : M bool :=
  ok <- get (fun s => malloc_ok s size);;
  emit (EvMalloc size ok);;;
  if ok : bool then ret true
  else (modify (with_errno ENOMEM);;; ret false).

Definition free : M unit := ret tt.

(** [mkdir path mode]: 0 and a new directory, or -1 and [errno]. The new
    directory gets the permission bits of [mode] that the file mode
    creation mask does not withhold. *)
Definition mkdir (path : string) (mode : Z) : M Z :=
  d <- get dirs;;
  match d !! path with
  | Some _ =>
      emit (EvMkdir path mode (Some EEXIST));;;
      modify (with_errno EEXIST);;; ret (-1)
  | None =>
      fault <- get (fun s => mkdir_fault s path);;
      emit (EvMkdir path mode fault);;;
      match fault with
      | Some e => modify (with_errno e);;; ret (-1)
      | None =>
          mask <- get umask;;
          modify (with_dirs (<[path := Z.ldiff mode mask]> d));;; ret 0
      end
  end.

(** [setenv name value overwrite]: 0 and the variable defined, or -1 and
    [errno]; an existing variable is kept when [overwrite] is 0. Defining
    the variable decides what becomes of the string that held its value so
    far. *)
Definition setenv (name value : string) (overwrite : Z) : M Z :=
  e <- get env;;
  if (overwrite =? 0) && bool_decide (is_Some (e !! name)) then ret 0
  else
    fault <- get (fun s => setenv_fault s name value);;
    emit (EvSetenv name value (bool_decide (fault = None)));;;
    match fault with
    | Some err => modify (with_errno err);;; ret (-1)
    | None =>
        kept <- get (fun s => setenv_keeps s name value);;
        modify (with_env (<[name := value]> e));;;
        modify (with_held kept);;; ret 0
    end.

Definition getpid : M Z := get pid.

Definition printf (fmt : string) (args : list Arg) : M unit :=
  text <- defined (vformat fmt args);;
  emit (EvPrintf text).

(** The call [func()]. The event records the state of the system that
    the callback finds when it starts. *)
Definition call (func : Callback) : M unit :=
  fun s tr =>
    let tr' := tr ++ [EvCall s] in
    match func s with
    | CbReturn s' => Next tt s' tr'
    | CbAbort s' => Leave Unwound s' tr'
    end.

Definition mode_0700 : Z := 7 * 8 * 8.

Definition newline : string := String "010" EmptyString.

(** ** [ultra_sampler_hook.cpp] *)

Module Hook.

Definition set_temporary_tmpdir (sub_dir_name : string) (func : Callback) : M unit :=
  (* Get the current TMPDIR *)
  original_tmpdir <- getenv "TMPDIR";;
  match original_tmpdir with
  | None => return_
  | Some original_tmpdir =>
    let original_tmpdir_len := strlen original_tmpdir in
    last_char <- defined (char_at original_tmpdir (size_sub original_tmpdir_len 1));;
    let has_trailing_slash := Ascii.eqb last_char "/" in
    (* Construct the new TMPDIR path *)
    let new_tmpdir_len :=
      size_add (size_add (size_add original_tmpdir_len (strlen sub_dir_name)) 1)
               (if has_trailing_slash then 1 else 0) in
    new_tmpdir <- malloc new_tmpdir_len;;
    if negb new_tmpdir then return_
    else
      new_tmpdir <- defined (snprintf new_tmpdir_len
                               (if has_trailing_slash then "%s%s/" else "%s/%s/")
                               [ArgS original_tmpdir; ArgS sub_dir_name]);;
      (* Create the subdirectory if it doesn't exist *)
      r <- mkdir new_tmpdir mode_0700;;
      e <- get errno;;
      if negb (r =? 0) && bool_decide (e <> EEXIST) then
        free;;; return_
      else
        (* Set the TMPDIR environment variable to the new subdirectory *)
        r <- setenv "TMPDIR" new_tmpdir 1;;
        if negb (r =? 0) then
          free;;; return_
        else
          free;;;
          (* Call the function that will use the new TMPDIR *)
          call func;;;
          (* Restore the original TMPDIR *)
          original_tmpdir <- string_at original_tmpdir new_tmpdir;;
          setenv "TMPDIR" original_tmpdir 1;;;
          ret tt
  end.

(** Function that is called when the module is loaded; the sampler's entry
    point [ultra_sampler_start] is external to the repository. *)
Definition ultra_sampler_boot (ultra_sampler_start : Callback) : M unit :=
  set_temporary_tmpdir ".ultra" ultra_sampler_start.

End Hook.

(** ** [ultra_sampler_indirect.cpp] *)

Module Indirect.

Definition set_temporary_tmpdir (sub_dir_name : string) (func : Callback) : M unit :=
  (* Get the current TMPDIR *)
  original_tmpdir <- getenv "TMPDIR";;
  match original_tmpdir with
  | None => return_
  | Some original_tmpdir =>
    let original_tmpdir_len := strlen original_tmpdir in
    last_char <- defined (char_at original_tmpdir (size_sub original_tmpdir_len 1));;
    let has_trailing_slash := Ascii.eqb last_char "/" in
    (* Construct the new TMPDIR path *)
    let new_tmpdir_len :=
      size_add (size_add (size_add original_tmpdir_len (strlen sub_dir_name)) 1)
               (if has_trailing_slash then 1 else 0) in
    new_tmpdir <- malloc new_tmpdir_len;;
    if negb new_tmpdir then return_
    else
      new_tmpdir <- defined (snprintf new_tmpdir_len
                               (if has_trailing_slash then "%s%s/" else "%s/%s/")
                               [ArgS original_tmpdir; ArgS sub_dir_name]);;
      (* Create the subdirectory if it doesn't exist *)
      r <- mkdir new_tmpdir mode_0700;;
      e <- get errno;;
      if negb (r =? 0) && bool_decide (e <> EEXIST) then
        free;;; return_
      else
        (* Set the TMPDIR environment variable to the new subdirectory *)
        r <- setenv "TMPDIR" new_tmpdir 1;;
        if negb (r =? 0) then
          free;;; return_
        else
          free;;;
          pid <- getpid;;
          tmpdir <- getenv "TMPDIR";;
          (* a null pointer for a %s conversion has no defined expansion *)
          tmpdir <- defined tmpdir;;
          printf ("Current Process pid: %d tmpdir: %s" +:+ newline)
                 [ArgD pid; ArgS tmpdir];;;
          (* Call the arbitrary function *)
          call func;;;
          (* Restore the original TMPDIR *)
          original_tmpdir <- string_at original_tmpdir new_tmpdir;;
          setenv "TMPDIR" original_tmpdir 1;;;
          ret tt
  end.

Definition ultra_sampler_boot (ultra_sampler_start : Callback) : M unit :=
  set_temporary_tmpdir ".ultra" ultra_sampler_start.

End Indirect.

(** ** Reading a system and a trace *)

(** The value of TMPDIR, if it is set. *)
Definition tmpdir (s : Sys) : option string := env s !! "TMPDIR".

(** The values of TMPDIR found by the callback at each of its invocations. *)
Definition tmpdir_seen (tr : list Event) : list (option string) :=
  omap (fun e => match e with EvCall c => Some (tmpdir c) | _ => None end) tr.

(** The successful assignments of a trace, as pairs of name and value. *)
Definition assigned (tr : list Event) : list (string * string) :=
  omap (fun e => match e with
                 | EvSetenv name value true => Some (name, value)
                 | _ => None
                 end) tr.

(** The directories that a trace created. *)
Definition created (tr : list Event) : list string :=
  omap (fun e => match e with
                 | EvMkdir path _ None => Some path
                 | _ => None
                 end) tr.

(** ** The redirect path as the sources compute it *)

(** The index of the character that the separator test reads. *)
Definition last_index (original_tmpdir : string) : Z :=
  size_sub (strlen original_tmpdir) 1.

(** The test of lines 22-23 (hook) and 19-20 (indirect): the character at
    index [strlen - 1], compared with the separator. *)
Definition has_trailing_slash (original_tmpdir : string) : option bool :=
  (fun c => Ascii.eqb c "/") <$>
    char_at original_tmpdir (last_index original_tmpdir).

Definition new_tmpdir_len (original_tmpdir sub_dir_name : string) (slash : bool) : Z :=
  size_add (size_add (size_add (strlen original_tmpdir) (strlen sub_dir_name)) 1)
           (if slash then 1 else 0).

(** The content of the buffer after [snprintf]. *)
Definition new_tmpdir (original_tmpdir sub_dir_name : string) : option string :=
  slash ← has_trailing_slash original_tmpdir;
  snprintf (new_tmpdir_len original_tmpdir sub_dir_name slash)
           (if slash : bool then "%s%s/" else "%s/%s/")
           [ArgS original_tmpdir; ArgS sub_dir_name].

(** ** Reading the result of a run *)

Definition outcome_of (r : Outcome * Sys * list Event) : Outcome := r.1.1.
Definition final (r : Outcome * Sys * list Event) : Sys := r.1.2.
Definition trace_of (r : Outcome * Sys * list Event) : list Event := r.2.

Definition is_call (e : Event) : bool :=
  match e with EvCall _ => true | _ => false end.

Definition is_printf (e : Event) : bool :=
  match e with EvPrintf _ => true | _ => false end.

(** The callback was invoked. *)
Definition callback_invoked (tr : list Event) : bool := existsb is_call tr.

(** A directory creation failed for another reason than "already exists". *)
Definition mkdir_failed (tr : list Event) : bool :=
  existsb (fun e => match e with
                    | EvMkdir _ _ (Some e) => bool_decide (e <> EEXIST)
                    | _ => false
                    end) tr.

(** A directory creation succeeded or found the directory in place. *)
Definition mkdir_accepted (tr : list Event) : bool :=
  existsb (fun e => match e with
                    | EvMkdir _ _ None => true
                    | EvMkdir _ _ (Some e) => bool_decide (e = EEXIST)
                    | _ => false
                    end) tr.

(** An allocation failed. *)
Definition allocation_failed (tr : list Event) : bool :=
  existsb (fun e => match e with EvMalloc _ ok => negb ok | _ => false end) tr.

(** Every assignment of an environment variable succeeded. *)
Definition assignments_succeed (tr : list Event) : bool :=
  forallb (fun e => match e with EvSetenv _ _ ok => ok | _ => true end) tr.

(** A trace without its diagnostic output. *)
Definition silent (tr : list Event) : list Event :=
  filter (fun e => is_printf e = false) tr.

(** The line that the indirect variant prints before it calls back. *)
Definition diagnostic (c : Sys) : string :=
  "Current Process pid: " +:+ decimal (pid c) +:+ " tmpdir: " +:+
  default "" (tmpdir c) +:+ newline.

(** A trace with that line put in front of every call of the callback. *)
Fixpoint diagnose (tr : list Event) : list Event :=
  match tr with
  | [] => []
  | EvCall c :: tr' => EvPrintf (diagnostic c) :: EvCall c :: diagnose tr'
  | e :: tr' => e :: diagnose tr'
  end.

(** ** The libc calls in closed form *)

(** What [mkdir path] answers in state [s], and the state it leaves. *)
Definition mkdir_result (s : Sys) (path : string) : option Errno :=
  match dirs s !! path with
  | Some _ => Some EEXIST
  | None => mkdir_fault s path
  end.

Definition after_mkdir (s : Sys) (path : string) (mode : Z) : Sys :=
  match mkdir_result s path with
  | Some e => with_errno e s
  | None => with_dirs (<[path := Z.ldiff mode (umask s)]> (dirs s)) s
  end.

(** The state that an overwriting [setenv name value] leaves. *)
Definition after_setenv (s : Sys) (name value : string) : Sys :=
  match setenv_fault s name value with
  | Some e => with_errno e s
  | None =>
      with_held (setenv_keeps s name value)
                (with_env (<[name := value]> (env s)) s)
  end.

Definition status (r : option Errno) : Z :=
  match r with Some _ => -1 | None => 0 end.

(** Strings that fit the address space, with room for what the routine
    adds to them. *)
Definition fits (original_tmpdir sub_dir_name : string) : Prop :=
  strlen original_tmpdir + strlen sub_dir_name + 2 < size_modulus.

(** The read is inside the string object exactly when the index does not
    exceed the position of the terminator. *)
Definition read_in_bounds (original_tmpdir : string) : bool :=
  last_index original_tmpdir <=? strlen original_tmpdir.

(** ** The paths through [set_temporary_tmpdir] of the hook *)

(** [Runs sub_dir_name func s o s' tr]: started in [s], the routine leaves
    in the way [o], in state [s'], having done [tr]. One constructor per
    way through the body. *)
Inductive Runs (sub_dir_name : string) (func : Callback) (s : Sys)
  : Outcome -> Sys -> list Event -> Prop :=
  | run_unset :
      tmpdir s = None ->
      Runs sub_dir_name func s Returned s []
  | run_out_of_bounds v :
      tmpdir s = Some v ->
      has_trailing_slash v = None ->
      Runs sub_dir_name func s Undefined s []
  | run_no_memory v slash n :
      tmpdir s = Some v ->
      has_trailing_slash v = Some slash ->
      n = new_tmpdir_len v sub_dir_name slash ->
      malloc_ok s n = false ->
      Runs sub_dir_name func s Returned (with_errno ENOMEM s) [EvMalloc n false]
  | run_no_buffer v slash n :
      tmpdir s = Some v ->
      has_trailing_slash v = Some slash ->
      n = new_tmpdir_len v sub_dir_name slash ->
      malloc_ok s n = true ->
      new_tmpdir v sub_dir_name = None ->
      Runs sub_dir_name func s Undefined s [EvMalloc n true]
  | run_mkdir_fails v slash n p e :
      tmpdir s = Some v ->
      has_trailing_slash v = Some slash ->
      n = new_tmpdir_len v sub_dir_name slash ->
      malloc_ok s n = true ->
      new_tmpdir v sub_dir_name = Some p ->
      mkdir_result s p = Some e ->
      e <> EEXIST ->
      Runs sub_dir_name func s Returned (after_mkdir s p mode_0700)
           [EvMalloc n true; EvMkdir p mode_0700 (Some e)]
  | run_setenv_fails v slash n p r e :
      tmpdir s = Some v ->
      has_trailing_slash v = Some slash ->
      n = new_tmpdir_len v sub_dir_name slash ->
      malloc_ok s n = true ->
      new_tmpdir v sub_dir_name = Some p ->
      mkdir_result s p = r ->
      r = None \/ r = Some EEXIST ->
      setenv_fault s "TMPDIR" p = Some e ->
      Runs sub_dir_name func s Returned
           (after_setenv (after_mkdir s p mode_0700) "TMPDIR" p)
           [EvMalloc n true; EvMkdir p mode_0700 r; EvSetenv "TMPDIR" p false]
  | run_callback_aborts v slash n p r c s' :
      tmpdir s = Some v ->
      has_trailing_slash v = Some slash ->
      n = new_tmpdir_len v sub_dir_name slash ->
      malloc_ok s n = true ->
      new_tmpdir v sub_dir_name = Some p ->
      mkdir_result s p = r ->
      r = None \/ r = Some EEXIST ->
      setenv_fault s "TMPDIR" p = None ->
      c = after_setenv (after_mkdir s p mode_0700) "TMPDIR" p ->
      func c = CbAbort s' ->
      Runs sub_dir_name func s Unwound s'
           [EvMalloc n true; EvMkdir p mode_0700 r; EvSetenv "TMPDIR" p true;
            EvCall c]
  | run_string_released v slash n p r c s' :
      tmpdir s = Some v ->
      has_trailing_slash v = Some slash ->
      n = new_tmpdir_len v sub_dir_name slash ->
      malloc_ok s n = true ->
      new_tmpdir v sub_dir_name = Some p ->
      mkdir_result s p = r ->
      r = None \/ r = Some EEXIST ->
      setenv_fault s "TMPDIR" p = None ->
      c = after_setenv (after_mkdir s p mode_0700) "TMPDIR" p ->
      func c = CbReturn s' ->
      pointee (held s') v p = None ->
      Runs sub_dir_name func s Undefined s'
           [EvMalloc n true; EvMkdir p mode_0700 r; EvSetenv "TMPDIR" p true;
            EvCall c]
  | run_callback_returns v slash n p r c s' x :
      tmpdir s = Some v ->
      has_trailing_slash v = Some slash ->
      n = new_tmpdir_len v sub_dir_name slash ->
      malloc_ok s n = true ->
      new_tmpdir v sub_dir_name = Some p ->
      mkdir_result s p = r ->
      r = None \/ r = Some EEXIST ->
      setenv_fault s "TMPDIR" p = None ->
      c = after_setenv (after_mkdir s p mode_0700) "TMPDIR" p ->
      func c = CbReturn s' ->
      pointee (held s') v p = Some x ->
      Runs sub_dir_name func s Returned (after_setenv s' "TMPDIR" x)
           [EvMalloc n true; EvMkdir p mode_0700 r; EvSetenv "TMPDIR" p true;
            EvCall c;
            EvSetenv "TMPDIR" x (bool_decide (setenv_fault s' "TMPDIR" x = None))].


(** ** Scenarios *)

(** The usual file mode creation mask, 022. *)
Definition mask_022 : Z := 2 * 8 + 2.

(** A system in which nothing fails: no directory exists yet, every
    allocation, directory creation and assignment succeeds, the file mode
    creation mask is the usual one, and [keeps] is what becomes of a string
    obtained from [getenv] when its variable is assigned. *)
Definition quiet (e : gmap string string) (keeps : Held) : Sys :=
  mkSys e ∅ ENONE 4242 mask_022 Intact
        (fun _ => true) (fun _ => None) (fun _ _ => None) (fun _ _ => keeps).

(** Such a system whose library leaves those strings alone. *)
Definition calm (e : gmap string string) : Sys := quiet e Intact.

(** A callback that returns at once, and one that never returns. *)
Definition returns : Callback := CbReturn.
Definition throws : Callback := CbAbort.

(** The system of the specification's scenarios: TMPDIR holds [value],
    nothing fails. *)
Definition with_tmpdir (value : string) : Sys := calm {["TMPDIR" := value]}.

(** A system without TMPDIR. *)
Definition without_tmpdir : Sys := calm ∅.

(** A system in which directories cannot be created. *)
Definition read_only (value : string) : Sys :=
  mkSys {["TMPDIR" := value]} ∅ ENONE 4242 mask_022 Intact
        (fun _ => true) (fun _ => Some EROFS) (fun _ _ => None)
        (fun _ _ => Intact).

(** A system without memory left. *)
Definition exhausted (value : string) : Sys :=
  mkSys {["TMPDIR" := value]} ∅ ENONE 4242 mask_022 Intact
        (fun _ => false) (fun _ => None) (fun _ _ => None)
        (fun _ _ => Intact).

(** A callback that returns, after which no assignment succeeds any more. *)
Definition starves : Callback :=
  fun s => CbReturn (mkSys (env s) (dirs s) (errno s) (pid s) (umask s)
                           (held s) (malloc_ok s) (mkdir_fault s)
                           (fun _ _ => Some ENOMEM) (setenv_keeps s)).

(** A system whose library writes a new value of a variable over the old
    one, in the same string. *)
Definition reusing (value : string) : Sys :=
  quiet {["TMPDIR" := value]} Overwritten.

(** A system whose library releases the string of the old value when a
    variable is assigned. *)
Definition releasing (value : string) : Sys :=
  quiet {["TMPDIR" := value]} Released.

(** The file mode creation mask 277. *)
Definition mask_277 : Z := (2 * 8 + 7) * 8 + 7.

(** A system whose file mode creation mask withholds the write and the
    search permission of the owner. *)
Definition masked (value : string) : Sys :=
  mkSys {["TMPDIR" := value]} ∅ ENONE 4242 mask_277 Intact
        (fun _ => true) (fun _ => None) (fun _ _ => None)
        (fun _ _ => Intact).

(** ** More ways to read a trace *)

(** The states in which the callback was started. *)
Definition calls (tr : list Event) : list Sys :=
  omap (fun e => match e with EvCall c => Some c | _ => None end) tr.

(** The paths of the directory creations that were attempted. *)
Definition mkdir_paths (tr : list Event) : list string :=
  omap (fun e => match e with EvMkdir path _ _ => Some path | _ => None end) tr.

(** The names of the variables whose assignment was attempted. *)
Definition setenv_names (tr : list Event) : list string :=
  omap (fun e => match e with EvSetenv name _ _ => Some name | _ => None end) tr.

(** The lines that were printed. *)
Definition printed (tr : list Event) : list string :=
  omap (fun e => match e with EvPrintf text => Some text | _ => None end) tr.

(** A system in which no environment variable can be assigned. *)
Definition frozen (value : string) : Sys :=
  mkSys {["TMPDIR" := value]} ∅ ENONE 4242 mask_277 Intact
        (fun _ => true) (fun _ => None) (fun _ _ => Some ENOMEM)
        (fun _ _ => Intact).

(** A string of one character. *)
Definition char (c : ascii) : string := String c EmptyString.

(** The directory of the sampler under a temporary directory [w/]. *)
Definition ultra_dir (w : string) : string := (w +:+ "/") +:+ ".ultra/".

(** The system [s] with the directory [path] created for its owner only and
    TMPDIR set to it. *)
Definition redirected (s : Sys) (path : string) : Sys :=
  with_held (setenv_keeps s "TMPDIR" path)
    (with_env (<["TMPDIR" := path]> (env s))
       (with_dirs (<[path := Z.ldiff mode_0700 (umask s)]> (dirs s)) s)).

(** * Properties *)

(** ** The libc calls in closed form, proved *)

Lemma mkdir_eq path mode s tr :
  mkdir path mode s tr =
  Next (status (mkdir_result s path)) (after_mkdir s path mode)
       (tr ++ [EvMkdir path mode (mkdir_result s path)]).
Proof.
  unfold mkdir, after_mkdir, mkdir_result, bind, get, emit, modify, ret.
  destruct (dirs s !! path); [reflexivity |].
  destruct (mkdir_fault s path); reflexivity.
Qed.

Lemma string_at_eq obtained assigned s tr :
  string_at obtained assigned s tr =
  match pointee (held s) obtained assigned with
  | Some x => Next x s tr
  | None => Leave Undefined s tr
  end.
Proof. reflexivity. Qed.

Lemma setenv_eq name value s tr :
  setenv name value 1 s tr =
  Next (status (setenv_fault s name value)) (after_setenv s name value)
       (tr ++ [EvSetenv name value (bool_decide (setenv_fault s name value = None))]).
Proof.
  unfold setenv, after_setenv, bind, get, emit, modify, ret. simpl.
  destruct (setenv_fault s name value); reflexivity.
Qed.

Lemma malloc_eq size s tr :
  malloc size s tr =
  Next (malloc_ok s size)
       (if malloc_ok s size then s else with_errno ENOMEM s)
       (tr ++ [EvMalloc size (malloc_ok s size)]).
Proof.
  unfold malloc, bind, get, emit, modify, ret.
  destruct (malloc_ok s size); reflexivity.
Qed.

Lemma errno_after_mkdir s path mode e :
  mkdir_result s path = Some e -> errno (after_mkdir s path mode) = e.
Proof. unfold after_mkdir. intros ->. reflexivity. Qed.

Lemma env_after_mkdir s path mode : env (after_mkdir s path mode) = env s.
Proof. unfold after_mkdir. destruct (mkdir_result s path); reflexivity. Qed.

Lemma setenv_fault_after_mkdir s path mode :
  setenv_fault (after_mkdir s path mode) = setenv_fault s.
Proof. unfold after_mkdir. destruct (mkdir_result s path); reflexivity. Qed.


(** A successful [mkdir] leaves the directory behind, with the requested
    permission bits; a refused one leaves the file system as it was. *)
Lemma dirs_after_mkdir_created s path mode :
  mkdir_result s path = None ->
  dirs (after_mkdir s path mode) !! path = Some (Z.ldiff mode (umask s)).
Proof.
  unfold after_mkdir. intros ->. simpl. apply lookup_insert_eq.
Qed.

Lemma dirs_after_mkdir_refused s path mode e :
  mkdir_result s path = Some e -> dirs (after_mkdir s path mode) = dirs s.
Proof. unfold after_mkdir. intros ->. reflexivity. Qed.

Lemma tmpdir_after_setenv s value :
  setenv_fault s "TMPDIR" value = None ->
  tmpdir (after_setenv s "TMPDIR" value) = Some value.
Proof.
  unfold after_setenv, tmpdir. intros ->. simpl. apply lookup_insert_eq.
Qed.

(** ** The paths through [set_temporary_tmpdir] of the hook *)

Lemma mkdir_result_cases (r : option Errno) :
  (exists e, r = Some e /\ e <> EEXIST) \/ r = None \/ r = Some EEXIST.
Proof.
  destruct r as [e |]; [| tauto].
  destruct (decide (e = EEXIST)) as [-> | Hne]; [tauto | eauto].
Qed.

(** Every run of the hook's routine follows one of these paths. *)
Lemma Hook_runs sub_dir_name func s :
  match run (Hook.set_temporary_tmpdir sub_dir_name func) s with
  | (o, s', tr) => Runs sub_dir_name func s o s' tr
  end.
Proof.
  unfold run, Hook.set_temporary_tmpdir, bind at 1, getenv, get.
  destruct (env s !! "TMPDIR") as [v |] eqn:Hv; [| by constructor].
  unfold bind at 1, defined.
  destruct (char_at v (size_sub (strlen v) 1)) as [ch |] eqn:Hch; cycle 1.
  { eapply run_out_of_bounds; [exact Hv |].
    unfold has_trailing_slash, last_index. by rewrite Hch. }
  assert (Hslash : has_trailing_slash v = Some (Ascii.eqb ch "/")).
  { unfold has_trailing_slash, last_index. by rewrite Hch. }
  set (slash := Ascii.eqb ch "/") in *.
  fold (new_tmpdir_len v sub_dir_name slash).
  set (n := new_tmpdir_len v sub_dir_name slash).
  assert (Hpath : new_tmpdir v sub_dir_name =
                  snprintf n (if slash then "%s%s/" else "%s/%s/")
                           [ArgS v; ArgS sub_dir_name]).
  { unfold new_tmpdir. rewrite Hslash. reflexivity. }
  unfold bind at 1. rewrite malloc_eq.
  destruct (malloc_ok s n) eqn:Hmem; simpl; cycle 1.
  { by eapply run_no_memory. }
  unfold bind at 1, defined. rewrite <- Hpath.
  destruct (new_tmpdir v sub_dir_name) as [p |] eqn:Hp; cycle 1.
  { by eapply run_no_buffer. }
  unfold bind at 1. rewrite mkdir_eq. unfold bind at 1, get.
  destruct (mkdir_result_cases (mkdir_result s p))
    as [(e & Hr & Hne) | Hr].
  - rewrite Hr. simpl. rewrite (errno_after_mkdir _ _ _ _ Hr).
    rewrite bool_decide_eq_true_2 by done. simpl.
    by eapply run_mkdir_fails.
  - assert (Hgo : negb (status (mkdir_result s p) =? 0)
                  && bool_decide (errno (after_mkdir s p mode_0700) <> EEXIST)
                  = false).
    { destruct Hr as [Hr | Hr]; [by rewrite Hr |].
      rewrite (errno_after_mkdir _ _ _ _ Hr), Hr. reflexivity. }
    rewrite Hgo. unfold bind at 1. rewrite setenv_eq.
    rewrite setenv_fault_after_mkdir.
    destruct (setenv_fault s "TMPDIR" p) as [e |] eqn:Hset; simpl.
    + unfold free, bind, ret, return_. by eapply run_setenv_fails.
    + unfold free, bind at 1 2, ret, call.
      destruct (func (after_setenv (after_mkdir s p mode_0700) "TMPDIR" p))
        as [s' | s'] eqn:Hf.
      * unfold bind at 1. rewrite string_at_eq.
        destruct (pointee (held s') v p) as [x |] eqn:Hx.
        -- unfold bind. rewrite setenv_eq. simpl.
           by eapply run_callback_returns.
        -- by eapply run_string_released.
      * by eapply run_callback_aborts.
Qed.

(** ** Strings, sizes and the computed path *)

Lemma length_append (a b : string) :
  String.length (a +:+ b) = (String.length a + String.length b)%nat.
Proof. induction a as [| c a IH]; simpl; [reflexivity | by rewrite IH]. Qed.

Lemma str_take_all (n : nat) (s : string) :
  (String.length s <= n)%nat -> str_take n s = s.
Proof.
  revert n. induction s as [| c s IH]; intros [| n] Hn; simpl in *;
    try reflexivity; try lia.
  rewrite IH by lia. reflexivity.
Qed.

Lemma str_take_length (n : nat) (s : string) :
  (n <= String.length s)%nat -> String.length (str_take n s) = n.
Proof.
  revert n. induction s as [| c s IH]; intros [| n] Hn; simpl in *;
    try reflexivity; try lia.
  rewrite IH by lia. reflexivity.
Qed.

Lemma get_is_Some (n : nat) (s : string) :
  (n < String.length s)%nat -> is_Some (String.get n s).
Proof.
  revert n. induction s as [| c s IH]; intros n Hn; simpl in *; [lia |].
  destruct n as [| n]; [by eexists | apply IH; lia].
Qed.

Lemma strlen_nonneg (s : string) : 0 <= strlen s.
Proof. unfold strlen. lia. Qed.

Lemma strlen_empty (s : string) : strlen s = 0 <-> s = "".
Proof.
  unfold strlen. destruct s; simpl; split; intros H; try done; lia.
Qed.

Lemma wrap_small (z : Z) : 0 <= z < size_modulus -> wrap z = z.
Proof. intros H. unfold wrap. by apply Z.mod_small. Qed.

Lemma size_modulus_pos : 0 < size_modulus.
Proof. reflexivity. Qed.

Lemma new_tmpdir_len_fits v sub slash :
  fits v sub ->
  new_tmpdir_len v sub slash =
  strlen v + strlen sub + 1 + (if slash then 1 else 0).
Proof.
  unfold fits, new_tmpdir_len, size_add. intros Hfit.
  pose proof (strlen_nonneg v). pose proof (strlen_nonneg sub).
  rewrite (wrap_small (strlen v + strlen sub)) by lia.
  rewrite (wrap_small (strlen v + strlen sub + 1)) by lia.
  apply wrap_small. destruct slash; lia.
Qed.

Lemma char_at_in_bounds s i :
  0 <= i -> is_Some (char_at s i) <-> i <= strlen s.
Proof.
  intros Hi. unfold char_at.
  destruct (i <? strlen s) eqn:Hlt.
  - apply Z.ltb_lt in Hlt. split; [lia |]. intros _.
    apply get_is_Some. unfold strlen in Hlt. lia.
  - apply Z.ltb_ge in Hlt.
    destruct (i =? strlen s) eqn:Heq.
    + apply Z.eqb_eq in Heq. split; [lia | by eexists].
    + apply Z.eqb_neq in Heq. split; [intros [? ?]; done | lia].
Qed.

Lemma last_index_empty : last_index "" = size_modulus - 1.
Proof. reflexivity. Qed.

Lemma last_index_nonempty v :
  strlen v < size_modulus -> v <> "" -> last_index v = strlen v - 1.
Proof.
  intros Hfit Hne. unfold last_index, size_sub.
  assert (strlen v <> 0) by (by rewrite strlen_empty).
  pose proof (strlen_nonneg v). apply wrap_small. lia.
Qed.

(** The separator test reads inside the string exactly when the string is
    not empty. *)
Lemma has_trailing_slash_defined v :
  strlen v < size_modulus ->
  is_Some (has_trailing_slash v) <-> v <> "".
Proof.
  intros Hfit. unfold has_trailing_slash. rewrite fmap_is_Some. split.
  - intros Hsome ->. rewrite last_index_empty in Hsome.
    by destruct Hsome.
  - intros Hne. rewrite (last_index_nonempty v Hfit Hne).
    assert (strlen v <> 0) by (by rewrite strlen_empty).
    pose proof (strlen_nonneg v).
    apply char_at_in_bounds; lia.
Qed.

Lemma new_tmpdir_with_slash v sub :
  fits v sub ->
  has_trailing_slash v = Some true ->
  new_tmpdir v sub = Some (v +:+ sub +:+ "/").
Proof.
  intros Hfit Hslash. unfold new_tmpdir. rewrite Hslash. simpl.
  rewrite (new_tmpdir_len_fits v sub true Hfit).
  unfold snprintf.
  pose proof (strlen_nonneg v). pose proof (strlen_nonneg sub).
  destruct (strlen v + strlen sub + 1 + 1 =? 0) eqn:Hz;
    [apply Z.eqb_eq in Hz; lia |].
  simpl. f_equal. apply str_take_all.
  rewrite !length_append. unfold strlen in *. simpl. lia.
Qed.

(** Without a trailing separator the buffer is two bytes short: what it
    holds is the expansion without its last two characters. *)
Lemma new_tmpdir_without_slash v sub :
  fits v sub ->
  has_trailing_slash v = Some false ->
  new_tmpdir v sub =
  Some (str_take (String.length v + String.length sub)
                 (v +:+ "/" +:+ sub +:+ "/")).
Proof.
  intros Hfit Hslash. unfold new_tmpdir. rewrite Hslash. simpl.
  rewrite (new_tmpdir_len_fits v sub false Hfit).
  unfold snprintf.
  pose proof (strlen_nonneg v). pose proof (strlen_nonneg sub).
  destruct (strlen v + strlen sub + 1 + 0 =? 0) eqn:Hz;
    [apply Z.eqb_eq in Hz; lia |].
  simpl. do 2 f_equal. unfold strlen. lia.
Qed.

Lemma new_tmpdir_without_slash_length v sub p :
  fits v sub ->
  has_trailing_slash v = Some false ->
  new_tmpdir v sub = Some p ->
  strlen p = strlen v + strlen sub /\ p <> v +:+ "/" +:+ sub +:+ "/".
Proof.
  intros Hfit Hslash Hp.
  rewrite (new_tmpdir_without_slash v sub Hfit Hslash) in Hp.
  injection Hp as <-.
  assert (Hlen : String.length
            (str_take (String.length v + String.length sub)
                      (v +:+ "/" +:+ sub +:+ "/"))
          = (String.length v + String.length sub)%nat).
  { apply str_take_length. rewrite !length_append. simpl. lia. }
  split; [unfold strlen; lia |].
  intros Heq. rewrite Heq in Hlen. rewrite !length_append in Hlen.
  simpl in Hlen. lia.
Qed.

(** ** The two sources side by side *)

(** The routine of [ultra_sampler_indirect.cpp] leaves in the same way and
    in the same state as the one of [ultra_sampler_hook.cpp], and does the
    same things in the same order; it only prints a line before it calls
    back. *)
Lemma Indirect_diagnoses sub_dir_name func s :
  run (Indirect.set_temporary_tmpdir sub_dir_name func) s =
  (outcome_of (run (Hook.set_temporary_tmpdir sub_dir_name func) s),
   final (run (Hook.set_temporary_tmpdir sub_dir_name func) s),
   diagnose (trace_of (run (Hook.set_temporary_tmpdir sub_dir_name func) s))).
Proof.
  unfold outcome_of, final, trace_of, run,
    Indirect.set_temporary_tmpdir, Hook.set_temporary_tmpdir.
  cbv [bind getenv getpid get defined free ret return_].
  destruct (env s !! "TMPDIR") as [v |]; [| reflexivity].
  destruct (char_at v (size_sub (strlen v) 1)) as [ch |]; [| reflexivity].
  rewrite !malloc_eq. cbv beta iota.
  destruct (malloc_ok s _); [| reflexivity].
  cbv [negb app].
  destruct (snprintf _ _ _) as [p |]; [| reflexivity].
  rewrite !mkdir_eq. cbv beta iota.
  destruct (_ && _); [reflexivity |].
  rewrite !setenv_eq. cbv beta iota.
  destruct (setenv_fault (after_mkdir s p mode_0700) "TMPDIR" p) eqn:Hset;
    [reflexivity |].
  cbv [status Z.eqb].
  pose proof (tmpdir_after_setenv _ _ Hset) as Hseen. unfold tmpdir in Hseen.
  rewrite Hseen.
  cbv [printf bind defined emit call app].
  set (c := after_setenv (after_mkdir s p mode_0700) "TMPDIR" p) in *.
  assert (Hfmt : vformat ("Current Process pid: %d tmpdir: %s" +:+ newline)
                   [ArgD (pid c); ArgS p] = Some (diagnostic c)).
  { unfold diagnostic, tmpdir. rewrite Hseen. reflexivity. }
  rewrite Hfmt.
  destruct (func c) as [s' | s']; [| reflexivity].
  rewrite !string_at_eq.
  destruct (pointee (held s') v p); [| reflexivity].
  rewrite !setenv_eq. reflexivity.
Qed.

(** ** What runs of the hook's routine have in common *)

Lemma dirs_after_setenv s name value : dirs (after_setenv s name value) = dirs s.
Proof. unfold after_setenv. destruct (setenv_fault s name value); reflexivity. Qed.





(** Case analysis on the path that a run of the hook's routine took. *)
Ltac paths sub func s :=
  let R := fresh "R" in
  pose proof (Hook_runs sub func s) as R;
  destruct (run (Hook.set_temporary_tmpdir sub func) s) as [[? ?] ?];
  unfold outcome_of, final, trace_of in *; simpl fst in *; simpl snd in *;
  inversion R; subst; clear R.

Ltac accepted :=
  repeat match goal with
         | H : _ = None \/ _ = Some EEXIST |- _ =>
             destruct H as [H | H]; try rewrite H in *
         end.

(** The hook's routine prints nothing. *)
Lemma Hook_is_silent sub_dir_name func s :
  silent (trace_of (run (Hook.set_temporary_tmpdir sub_dir_name func) s)) =
  trace_of (run (Hook.set_temporary_tmpdir sub_dir_name func) s).
Proof. paths sub_dir_name func s; reflexivity. Qed.

Lemma silent_diagnose tr : silent (diagnose tr) = silent tr.
Proof.
  unfold silent.
  induction tr as [| e tr IH]; [reflexivity |].
  destruct e; simpl; rewrite ?filter_cons; simpl;
    repeat case_decide; try done; by rewrite IH.
Qed.

(** ** The properties of the redirector *)

(** C3. When TMPDIR is unset at entry, [set_temporary_tmpdir] returns at
    once: the system is left exactly as it was (TMPDIR still unset, no
    directory created) and nothing was done (the callback was not
    invoked). This holds for the routine of both source files. *)
Theorem C3_unset_returns_at_once sub_dir_name func s :
  tmpdir s = None ->
  run (Hook.set_temporary_tmpdir sub_dir_name func) s = (Returned, s, []) /\
  run (Indirect.set_temporary_tmpdir sub_dir_name func) s = (Returned, s, []).
Proof.
  intros Hunset. unfold tmpdir in Hunset.
  assert (Hhook : run (Hook.set_temporary_tmpdir sub_dir_name func) s
                  = (Returned, s, [])).
  { unfold run, Hook.set_temporary_tmpdir, bind, getenv, get.
    rewrite Hunset. reflexivity. }
  split; [exact Hhook |].
  rewrite Indirect_diagnoses, Hhook. reflexivity.
Qed.

Lemma C3_unset_returns_at_once_witness :
  tmpdir without_tmpdir = None /\
  run (Hook.set_temporary_tmpdir ".ultra" returns) without_tmpdir
    = (Returned, without_tmpdir, []) /\
  run (Indirect.set_temporary_tmpdir ".ultra" returns) without_tmpdir
    = (Returned, without_tmpdir, []).
Proof.
  split; [reflexivity |].
  apply (C3_unset_returns_at_once ".ultra" returns without_tmpdir).
  reflexivity.
Defined.

(** C4. Whenever the directory creation of a call fails for another reason
    than "already exists", the call returns with the environment (hence
    TMPDIR) as it was at entry, without having assigned any variable and
    without having invoked the callback. *)
Theorem C4_mkdir_failure_aborts sub_dir_name func s :
  mkdir_failed (trace_of (run (Hook.set_temporary_tmpdir sub_dir_name func) s))
    = true ->
  outcome_of (run (Hook.set_temporary_tmpdir sub_dir_name func) s) = Returned /\
  env (final (run (Hook.set_temporary_tmpdir sub_dir_name func) s)) = env s /\
  callback_invoked
    (trace_of (run (Hook.set_temporary_tmpdir sub_dir_name func) s)) = false /\
  forall name value ok,
    EvSetenv name value ok
      ∉ trace_of (run (Hook.set_temporary_tmpdir sub_dir_name func) s).
Proof.
  paths sub_dir_name func s; simpl; intros Hfail; accepted; subst;
    try discriminate.
  rewrite env_after_mkdir. repeat split.
  intros name value ok Hin. decompose_list_elem_of; discriminate.
Qed.

Lemma C4_mkdir_failure_aborts_witness :
  mkdir_failed
    (trace_of (run (Hook.set_temporary_tmpdir ".ultra" returns)
                   (read_only "/tmp/"))) = true /\
  outcome_of (run (Hook.set_temporary_tmpdir ".ultra" returns)
                  (read_only "/tmp/")) = Returned /\
  tmpdir (final (run (Hook.set_temporary_tmpdir ".ultra" returns)
                     (read_only "/tmp/"))) = Some "/tmp/" /\
  callback_invoked
    (trace_of (run (Hook.set_temporary_tmpdir ".ultra" returns)
                   (read_only "/tmp/"))) = false.
Proof.
  split; [reflexivity |].
  destruct (C4_mkdir_failure_aborts ".ultra" returns (read_only "/tmp/"))
    as (Ho & He & Hc & _); [reflexivity |].
  split; [exact Ho |].
  split; [unfold tmpdir; rewrite He; reflexivity | exact Hc].
Defined.

(** When the string behind the saved pointer is still intact as the
    callback returns, a successful call ends with TMPDIR holding the value
    it held at entry. *)
Lemma restores_when_string_intact sub_dir_name func s v :
  tmpdir s = Some v ->
  (forall c s',
     c ∈ calls (trace_of (run (Hook.set_temporary_tmpdir sub_dir_name func) s)) ->
     func c = CbReturn s' -> held s' = Intact) ->
  assignments_succeed
    (trace_of (run (Hook.set_temporary_tmpdir sub_dir_name func) s)) = true ->
  callback_invoked
    (trace_of (run (Hook.set_temporary_tmpdir sub_dir_name func) s)) = true ->
  outcome_of (run (Hook.set_temporary_tmpdir sub_dir_name func) s) = Returned ->
  tmpdir (final (run (Hook.set_temporary_tmpdir sub_dir_name func) s)) = Some v.
Proof.
  intros Hset.
  paths sub_dir_name func s; simpl; intros Hintact Hassign Hcall Hout;
    try discriminate.
  rewrite !andb_true_r in Hassign. apply bool_decide_eq_true_1 in Hassign.
  simplify_eq.
  match goal with
  | H : func _ = CbReturn _ |- _ =>
      rewrite (Hintact _ _ (list_elem_of_here _ _) H) in *
  end.
  simplify_eq/=. by apply tmpdir_after_setenv.
Qed.

(** C5. A call in which everything succeeds (TMPDIR set to "/tmp/", the
    directory created, both assignments succeeding, the callback invoked
    and returning) on a system whose library writes the new value of a
    variable over the old one: the pointer saved at entry then designates
    the redirected value, the restoring assignment assigns that value
    again, and TMPDIR is "/tmp/.ultra/" after the call, not "/tmp/". On a
    system whose library releases the old string, the restoring
    assignment reads a string that may not be read any more. *)
Theorem C5_restoring_reads_reused_string :
  tmpdir (reusing "/tmp/") = Some "/tmp/" /\
  mkdir_accepted
    (trace_of (run (Hook.set_temporary_tmpdir ".ultra" returns)
                   (reusing "/tmp/"))) = true /\
  assignments_succeed
    (trace_of (run (Hook.set_temporary_tmpdir ".ultra" returns)
                   (reusing "/tmp/"))) = true /\
  callback_invoked
    (trace_of (run (Hook.set_temporary_tmpdir ".ultra" returns)
                   (reusing "/tmp/"))) = true /\
  outcome_of (run (Hook.set_temporary_tmpdir ".ultra" returns)
                  (reusing "/tmp/")) = Returned /\
  assigned (trace_of (run (Hook.set_temporary_tmpdir ".ultra" returns)
                          (reusing "/tmp/")))
  = [("TMPDIR", "/tmp/.ultra/"); ("TMPDIR", "/tmp/.ultra/")] /\
  tmpdir (final (run (Hook.set_temporary_tmpdir ".ultra" returns)
                     (reusing "/tmp/"))) = Some "/tmp/.ultra/" /\
  tmpdir (final (run (Indirect.set_temporary_tmpdir ".ultra" returns)
                     (reusing "/tmp/"))) = Some "/tmp/.ultra/" /\
  outcome_of (run (Hook.set_temporary_tmpdir ".ultra" returns)
                  (releasing "/tmp/")) = Undefined.
Proof. repeat split. Qed.

(** The diagnostic line changes nothing to what is allocated. *)
Lemma allocation_failed_diagnose tr :
  allocation_failed (diagnose tr) = allocation_failed tr.
Proof.
  unfold allocation_failed.
  induction tr as [| e tr IH]; [reflexivity |].
  destruct e; simpl; by rewrite IH.
Qed.

(** When the allocation of the path buffer fails, the hook's routine
    returns having done nothing else. *)
Lemma Hook_allocation_failure sub_dir_name func s :
  allocation_failed
    (trace_of (run (Hook.set_temporary_tmpdir sub_dir_name func) s)) = true ->
  exists n,
    run (Hook.set_temporary_tmpdir sub_dir_name func) s
    = (Returned, with_errno ENOMEM s, [EvMalloc n false]).
Proof.
  paths sub_dir_name func s; simpl; intros Hfail; try discriminate.
  by eexists.
Qed.

(** C10. When the allocation of the path buffer fails, the routine (of
    either source file) returns silently: the environment (hence TMPDIR)
    and the directories are as they were at entry, and the failed
    allocation is all that happened: no directory creation, no
    assignment, no output, no invocation of the callback. *)
Theorem C10_allocation_failure_is_silent
    (body : string -> Callback -> M unit) sub_dir_name func s :
  body = Hook.set_temporary_tmpdir \/ body = Indirect.set_temporary_tmpdir ->
  allocation_failed (trace_of (run (body sub_dir_name func) s)) = true ->
  outcome_of (run (body sub_dir_name func) s) = Returned /\
  env (final (run (body sub_dir_name func) s)) = env s /\
  dirs (final (run (body sub_dir_name func) s)) = dirs s /\
  callback_invoked (trace_of (run (body sub_dir_name func) s)) = false /\
  exists n, trace_of (run (body sub_dir_name func) s) = [EvMalloc n false].
Proof.
  intros [-> | ->] Hfail.
  - destruct (Hook_allocation_failure _ _ _ Hfail) as [n ->].
    repeat split. by exists n.
  - rewrite Indirect_diagnoses in Hfail |- *.
    unfold trace_of at 1 in Hfail. simpl in Hfail.
    rewrite allocation_failed_diagnose in Hfail.
    destruct (Hook_allocation_failure _ _ _ Hfail) as [n ->].
    repeat split. by exists n.
Qed.

Lemma C10_allocation_failure_is_silent_witness :
  allocation_failed
    (trace_of (run (Indirect.set_temporary_tmpdir ".ultra" returns)
                   (exhausted "/tmp/"))) = true /\
  outcome_of (run (Indirect.set_temporary_tmpdir ".ultra" returns)
                  (exhausted "/tmp/")) = Returned /\
  env (final (run (Indirect.set_temporary_tmpdir ".ultra" returns)
                  (exhausted "/tmp/"))) = env (exhausted "/tmp/") /\
  dirs (final (run (Indirect.set_temporary_tmpdir ".ultra" returns)
                   (exhausted "/tmp/"))) = dirs (exhausted "/tmp/") /\
  callback_invoked
    (trace_of (run (Indirect.set_temporary_tmpdir ".ultra" returns)
                   (exhausted "/tmp/"))) = false /\
  exists n,
    trace_of (run (Indirect.set_temporary_tmpdir ".ultra" returns)
                  (exhausted "/tmp/")) = [EvMalloc n false].
Proof.
  split; [reflexivity |].
  apply (C10_allocation_failure_is_silent Indirect.set_temporary_tmpdir
           ".ultra" returns (exhausted "/tmp/")).
  - right. reflexivity.
  - reflexivity.
Defined.

(** C8. The routines of the two source files are equivalent up to what is
    printed: on every system, for every subdirectory name and callback,
    they leave in the same way and in the same final state, and do the same
    things in the same order (the same allocation, directory creation,
    assignments of TMPDIR and invocations of the callback); the indirect
    variant only adds its diagnostic line before each invocation. *)
Theorem C8_sources_agree_up_to_printing sub_dir_name func s :
  outcome_of (run (Indirect.set_temporary_tmpdir sub_dir_name func) s)
  = outcome_of (run (Hook.set_temporary_tmpdir sub_dir_name func) s) /\
  final (run (Indirect.set_temporary_tmpdir sub_dir_name func) s)
  = final (run (Hook.set_temporary_tmpdir sub_dir_name func) s) /\
  silent (trace_of (run (Indirect.set_temporary_tmpdir sub_dir_name func) s))
  = trace_of (run (Hook.set_temporary_tmpdir sub_dir_name func) s) /\
  trace_of (run (Indirect.set_temporary_tmpdir sub_dir_name func) s)
  = diagnose (trace_of (run (Hook.set_temporary_tmpdir sub_dir_name func) s)).
Proof.
  rewrite Indirect_diagnoses.
  repeat split. unfold trace_of at 1. simpl.
  rewrite silent_diagnose. apply Hook_is_silent.
Qed.

(** ** Where the sources depart from the specification *)

(** The read of the separator test is in bounds exactly when the test has
    a defined result. *)
Lemma read_in_bounds_defined v :
  read_in_bounds v = true <-> is_Some (has_trailing_slash v).
Proof.
  unfold read_in_bounds, has_trailing_slash. rewrite fmap_is_Some.
  rewrite char_at_in_bounds; [apply Z.leb_le |].
  unfold last_index, size_sub, wrap.
  apply Z.mod_pos_bound, size_modulus_pos.
Qed.

Lemma read_in_bounds_nonempty v :
  strlen v < size_modulus -> read_in_bounds v = true <-> v <> "".
Proof.
  intros Hfit. rewrite read_in_bounds_defined.
  by apply has_trailing_slash_defined.
Qed.

(** Whatever the callback finds in TMPDIR is the content of the buffer. *)
Lemma callback_sees_new_tmpdir sub_dir_name func s v :
  tmpdir s = Some v ->
  forall seen,
    seen ∈ tmpdir_seen
             (trace_of (run (Hook.set_temporary_tmpdir sub_dir_name func) s)) ->
    seen = new_tmpdir v sub_dir_name.
Proof.
  intros Hset.
  paths sub_dir_name func s; simpl; intros seen Hin;
    decompose_list_elem_of; simplify_eq.
  all: rewrite tmpdir_after_setenv;
    [congruence | by rewrite setenv_fault_after_mkdir].
Qed.

(** C1. With TMPDIR set to "/tmp" (no trailing separator) and the
    subdirectory ".ultra", the buffer is sized 11 bytes for the 12
    characters of "/tmp/.ultra/" and their terminator: the path that is
    created and written into TMPDIR is "/tmp/.ultr", not
    "/tmp/.ultra/". With a trailing separator the path is as specified. *)
Theorem C1_path_without_separator_is_cut :
  new_tmpdir_len "/tmp" ".ultra" false = 11 /\
  new_tmpdir "/tmp" ".ultra" = Some "/tmp/.ultr" /\
  new_tmpdir "/tmp" ".ultra" <> Some ("/tmp" +:+ "/" +:+ ".ultra" +:+ "/") /\
  assigned (trace_of (run (Hook.set_temporary_tmpdir ".ultra" returns)
                          (with_tmpdir "/tmp")))
  = [("TMPDIR", "/tmp/.ultr"); ("TMPDIR", "/tmp")] /\
  created (trace_of (run (Hook.set_temporary_tmpdir ".ultra" returns)
                         (with_tmpdir "/tmp")))
  = ["/tmp/.ultr"] /\
  new_tmpdir "/tmp/" ".ultra" = Some ("/tmp/" +:+ ".ultra" +:+ "/").
Proof. repeat split. discriminate. Qed.

(** C2. In the scenario of the specification (TMPDIR "/tmp", subdirectory
    ".ultra", nothing failing), the callback started by
    [ultra_sampler_boot] finds TMPDIR equal to "/tmp/.ultr", not to
    "/tmp/.ultra/". *)
Theorem C2_callback_sees_cut_path :
  mkdir_accepted (trace_of (run (Hook.ultra_sampler_boot returns)
                                (with_tmpdir "/tmp"))) = true /\
  assignments_succeed (trace_of (run (Hook.ultra_sampler_boot returns)
                                     (with_tmpdir "/tmp"))) = true /\
  tmpdir_seen (trace_of (run (Hook.ultra_sampler_boot returns)
                             (with_tmpdir "/tmp")))
  = [Some "/tmp/.ultr"] /\
  tmpdir_seen (trace_of (run (Hook.ultra_sampler_boot returns)
                             (with_tmpdir "/tmp")))
  <> [Some "/tmp/.ultra/"] /\
  tmpdir_seen (trace_of (run (Indirect.ultra_sampler_boot returns)
                             (with_tmpdir "/tmp")))
  = [Some "/tmp/.ultr"].
Proof. repeat split. discriminate. Qed.

(** C9. With TMPDIR set to the empty string, the index [strlen - 1] wraps
    around to the largest value of [size_t]: the separator test reads
    outside the string, and the routine of either source file has no
    defined behaviour from there on. *)
Theorem C9_empty_tmpdir_reads_out_of_bounds :
  last_index "" = size_modulus - 1 /\
  read_in_bounds "" = false /\
  char_at "" (last_index "") = None /\
  outcome_of (run (Hook.set_temporary_tmpdir ".ultra" returns)
                  (with_tmpdir "")) = Undefined /\
  outcome_of (run (Indirect.set_temporary_tmpdir ".ultra" returns)
                  (with_tmpdir "")) = Undefined.
Proof. repeat split. Qed.

(** C6, as the sources have it. Once the callback is invoked there are
    three ways out. If the callback returns and the string behind the
    pointer saved at entry may still be read, the last thing the routine
    does is assign this string to TMPDIR: it is the value that TMPDIR had
    at entry when the string is intact, and when the assignment succeeds
    TMPDIR holds it at return. If the callback ends abnormally, nothing of
    the routine runs after it: the system is left as the callback left it.
    If the callback returns and the string has been released, the routine
    reads it all the same. *)
Theorem C6_restores_after_normal_return sub_dir_name func s v :
  tmpdir s = Some v ->
  callback_invoked
    (trace_of (run (Hook.set_temporary_tmpdir sub_dir_name func) s)) = true ->
  (outcome_of (run (Hook.set_temporary_tmpdir sub_dir_name func) s) = Returned /\
   exists c s' x ok,
     c ∈ calls (trace_of (run (Hook.set_temporary_tmpdir sub_dir_name func) s))
     /\ func c = CbReturn s' /\
     last (trace_of (run (Hook.set_temporary_tmpdir sub_dir_name func) s))
     = Some (EvSetenv "TMPDIR" x ok) /\
     (held s' = Intact -> x = v) /\
     (ok = true ->
      tmpdir (final (run (Hook.set_temporary_tmpdir sub_dir_name func) s))
      = Some x))
  \/
  (outcome_of (run (Hook.set_temporary_tmpdir sub_dir_name func) s) = Unwound /\
   exists c,
     last (trace_of (run (Hook.set_temporary_tmpdir sub_dir_name func) s))
     = Some (EvCall c) /\
     func c
     = CbAbort (final (run (Hook.set_temporary_tmpdir sub_dir_name func) s)))
  \/
  (outcome_of (run (Hook.set_temporary_tmpdir sub_dir_name func) s) = Undefined
   /\
   exists c,
     last (trace_of (run (Hook.set_temporary_tmpdir sub_dir_name func) s))
     = Some (EvCall c) /\
     func c
     = CbReturn (final (run (Hook.set_temporary_tmpdir sub_dir_name func) s))
     /\
     held (final (run (Hook.set_temporary_tmpdir sub_dir_name func) s))
     = Released).
Proof.
  intros Hset.
  paths sub_dir_name func s; simpl; intros Hcall; try discriminate;
    simplify_eq.
  - right. left. split; [reflexivity |]. eexists. split; [reflexivity | done].
  - right. right. split; [reflexivity |].
    eexists. split; [reflexivity |]. split; [done |].
    by destruct (held s0).
  - left. split; [reflexivity |].
    eexists _, s', x, _. split; [apply list_elem_of_here |].
    split; [done |]. split; [reflexivity |]. split.
    + intros Hintact.
      match goal with
      | H : pointee _ _ _ = Some _ |- _ => rewrite Hintact in H; by injection H
      end.
    + intros Hok. apply bool_decide_eq_true_1 in Hok.
      by apply tmpdir_after_setenv.
Qed.

Lemma C6_restores_after_normal_return_witness :
  tmpdir (with_tmpdir "/tmp/") = Some "/tmp/" /\
  callback_invoked
    (trace_of (run (Hook.set_temporary_tmpdir ".ultra" returns)
                   (with_tmpdir "/tmp/"))) = true /\
  tmpdir (final (run (Hook.set_temporary_tmpdir ".ultra" returns)
                     (with_tmpdir "/tmp/"))) = Some "/tmp/".
Proof.
  split; [reflexivity |]. split; [reflexivity |].
  destruct (C6_restores_after_normal_return
              ".ultra" returns (with_tmpdir "/tmp/") "/tmp/")
    as [(_ & c & s' & x & ok & Hc & Hret & Hlast & Hintact & Hrestored)
        | [(Hout & _) | (Hout & _)]];
    [reflexivity | reflexivity | | discriminate Hout | discriminate Hout].
  apply list_elem_of_singleton in Hc. subst c.
  injection Hret as <-. injection Hlast as <- <-.
  apply Hrestored. reflexivity.
Defined.

(** C6, as the specification has it, fails on the sources. A callback that
    ends abnormally leaves the routine with TMPDIR still redirected; so
    does a callback after which the restoring assignment fails, the
    result of that assignment not being looked at. *)
Lemma C6_redirected_value_can_leak :
  tmpdir (with_tmpdir "/tmp/") = Some "/tmp/" /\
  (callback_invoked
     (trace_of (run (Hook.set_temporary_tmpdir ".ultra" throws)
                    (with_tmpdir "/tmp/"))) = true /\
   outcome_of (run (Hook.set_temporary_tmpdir ".ultra" throws)
                   (with_tmpdir "/tmp/")) = Unwound /\
   tmpdir (final (run (Hook.set_temporary_tmpdir ".ultra" throws)
                      (with_tmpdir "/tmp/"))) = Some "/tmp/.ultra/") /\
  (callback_invoked
     (trace_of (run (Hook.set_temporary_tmpdir ".ultra" starves)
                    (with_tmpdir "/tmp/"))) = true /\
   outcome_of (run (Hook.set_temporary_tmpdir ".ultra" starves)
                   (with_tmpdir "/tmp/")) = Returned /\
   tmpdir (final (run (Hook.set_temporary_tmpdir ".ultra" starves)
                      (with_tmpdir "/tmp/"))) = Some "/tmp/.ultra/") /\
  ~ (forall sub_dir_name func s v,
       tmpdir s = Some v ->
       callback_invoked
         (trace_of (run (Hook.set_temporary_tmpdir sub_dir_name func) s))
       = true ->
       tmpdir (final (run (Hook.set_temporary_tmpdir sub_dir_name func) s))
       = Some v).
Proof.
  split; [reflexivity |]. split; [repeat split |]. split; [repeat split |].
  intros Hclaim.
  specialize (Hclaim ".ultra" throws (with_tmpdir "/tmp/") "/tmp/"
                     eq_refl eq_refl).
  discriminate Hclaim.
Qed.

(** ** Calling the routine twice *)

(** The conditions under which a call of the hook's routine goes all the
    way with the string behind the saved pointer intact, and what it has
    done then: TMPDIR is back to its value at entry. *)
Lemma Hook_completes sub_dir_name func s v slash p s' :
  tmpdir s = Some v ->
  has_trailing_slash v = Some slash ->
  malloc_ok s (new_tmpdir_len v sub_dir_name slash) = true ->
  new_tmpdir v sub_dir_name = Some p ->
  mkdir_result s p = None \/ mkdir_result s p = Some EEXIST ->
  setenv_fault s "TMPDIR" p = None ->
  func (after_setenv (after_mkdir s p mode_0700) "TMPDIR" p) = CbReturn s' ->
  held s' = Intact ->
  setenv_fault s' "TMPDIR" v = None ->
  run (Hook.set_temporary_tmpdir sub_dir_name func) s
  = (Returned, after_setenv s' "TMPDIR" v,
     [EvMalloc (new_tmpdir_len v sub_dir_name slash) true;
      EvMkdir p mode_0700 (mkdir_result s p);
      EvSetenv "TMPDIR" p true;
      EvCall (after_setenv (after_mkdir s p mode_0700) "TMPDIR" p);
      EvSetenv "TMPDIR" v true]) /\
  tmpdir (after_setenv s' "TMPDIR" v) = Some v.
Proof.
  intros Hset Hslash Hmem Hp Hdir Hassign Hfunc Hintact Hrestore.
  split; [| by apply tmpdir_after_setenv].
  pose proof (Hook_runs sub_dir_name func s) as R.
  destruct (run (Hook.set_temporary_tmpdir sub_dir_name func) s)
    as [[o s1] tr1].
  inversion R; subst; simplify_eq; try congruence.
  - destruct Hdir; congruence.
  - match goal with
    | H : func _ = CbReturn ?a |- _ =>
        assert (a = s') as -> by congruence
    end.
    match goal with
    | H : pointee _ _ _ = None |- _ => by rewrite Hintact in H
    end.
  - match goal with
    | H : func _ = CbReturn ?a |- _ =>
        assert (a = s') as -> by congruence
    end.
    match goal with
    | H : pointee _ _ _ = Some _ |- _ =>
        rewrite Hintact in H; injection H as <-
    end.
    by rewrite Hrestore.
Qed.

(** The conditions under which the hook's routine gets as far as the
    callback, and what it has done by then. *)
Lemma Hook_reaches_callback sub_dir_name func s v slash p :
  tmpdir s = Some v ->
  has_trailing_slash v = Some slash ->
  malloc_ok s (new_tmpdir_len v sub_dir_name slash) = true ->
  new_tmpdir v sub_dir_name = Some p ->
  mkdir_result s p = None \/ mkdir_result s p = Some EEXIST ->
  setenv_fault s "TMPDIR" p = None ->
  exists rest,
    trace_of (run (Hook.set_temporary_tmpdir sub_dir_name func) s)
    = [EvMalloc (new_tmpdir_len v sub_dir_name slash) true;
       EvMkdir p mode_0700 (mkdir_result s p);
       EvSetenv "TMPDIR" p true;
       EvCall (after_setenv (after_mkdir s p mode_0700) "TMPDIR" p)] ++ rest.
Proof.
  intros Hset Hslash Hmem Hp Hdir Hassign.
  paths sub_dir_name func s; simplify_eq; try congruence.
  - destruct Hdir; congruence.
  - by eexists.
  - by eexists.
  - by eexists.
Qed.




(** The scenarios of the specification with a trailing separator: the
    directory "/tmp/.ultra/" is created, the callback finds it in TMPDIR,
    and the original value is back afterwards. *)
Example scenario_with_separator :
  created (trace_of (run (Hook.ultra_sampler_boot returns)
                         (with_tmpdir "/tmp/"))) = ["/tmp/.ultra/"] /\
  dirs (final (run (Hook.ultra_sampler_boot returns) (with_tmpdir "/tmp/")))
    !! "/tmp/.ultra/" = Some mode_0700 /\
  tmpdir_seen (trace_of (run (Hook.ultra_sampler_boot returns)
                             (with_tmpdir "/tmp/")))
  = [Some "/tmp/.ultra/"] /\
  tmpdir (final (run (Hook.ultra_sampler_boot returns) (with_tmpdir "/tmp/")))
  = Some "/tmp/".
Proof. repeat split. Qed.

(** For every original value with a trailing separator the path written
    into TMPDIR is the original value, the subdirectory name and one
    separator. *)
Lemma path_with_separator sub_dir_name func s v :
  tmpdir s = Some v ->
  fits v sub_dir_name ->
  has_trailing_slash v = Some true ->
  forall seen,
    seen ∈ tmpdir_seen
             (trace_of (run (Hook.set_temporary_tmpdir sub_dir_name func) s)) ->
    seen = Some (v +:+ sub_dir_name +:+ "/").
Proof.
  intros Hset Hfit Hslash seen Hseen.
  rewrite (callback_sees_new_tmpdir _ _ _ _ Hset _ Hseen).
  by apply new_tmpdir_with_slash.
Qed.

(** For every non-empty original value without a trailing separator the
    path written into TMPDIR is two characters short of the original
    value, a separator, the subdirectory name and a separator. *)
Lemma path_without_separator sub_dir_name func s v :
  tmpdir s = Some v ->
  fits v sub_dir_name ->
  has_trailing_slash v = Some false ->
  forall seen,
    seen ∈ tmpdir_seen
             (trace_of (run (Hook.set_temporary_tmpdir sub_dir_name func) s)) ->
    seen <> Some (v +:+ "/" +:+ sub_dir_name +:+ "/").
Proof.
  intros Hset Hfit Hslash seen Hseen.
  rewrite (callback_sees_new_tmpdir _ _ _ _ Hset _ Hseen).
  intros Heq.
  by destruct (new_tmpdir_without_slash_length _ _ _ Hfit Hslash Heq).
Qed.

(** * Further properties of the sources *)

(** ** Strings that end in a given character *)

Lemma append_cons x (a b : string) : String x a +:+ b = String x (a +:+ b).
Proof. reflexivity. Qed.



Lemma append_empty_r (a : string) : a +:+ "" = a.
Proof.
  induction a as [| x a IH]; [reflexivity |].
  rewrite append_cons. by f_equal.
Qed.

Lemma str_take_append (a b : string) (n : nat) :
  str_take (String.length a + n) (a +:+ b) = a +:+ str_take n b.
Proof.
  induction a as [| x a IH]; [reflexivity |].
  rewrite !append_cons. simpl. by f_equal.
Qed.

Lemma get_append_last (w : string) (c : ascii) :
  String.get (String.length w) (w +:+ char c) = Some c.
Proof.
  induction w as [| x w IH]; [reflexivity |].
  rewrite append_cons. exact IH.
Qed.

(** The separator test on a value that ends in the character [c]. *)
Lemma has_trailing_slash_last w c :
  strlen (w +:+ char c) < size_modulus ->
  has_trailing_slash (w +:+ char c) = Some (Ascii.eqb c "/").
Proof.
  intros Hfit. unfold has_trailing_slash.
  assert (Hne : w +:+ char c <> "") by (by destruct w).
  rewrite (last_index_nonempty _ Hfit Hne).
  assert (Hlen : strlen (w +:+ char c) - 1 = Z.of_nat (String.length w)).
  { unfold strlen. rewrite length_append. simpl. lia. }
  rewrite Hlen. unfold char_at.
  assert (Hlt : (Z.of_nat (String.length w) <? strlen (w +:+ char c)) = true).
  { apply Z.ltb_lt. lia. }
  rewrite Hlt, Nat2Z.id, get_append_last. reflexivity.
Qed.

Lemma fits_strlen v sub : fits v sub -> strlen v < size_modulus.
Proof. unfold fits. pose proof (strlen_nonneg sub). lia. Qed.

(** The buffer for a value that ends in a separator. *)
Lemma new_tmpdir_ends_with_slash w sub :
  fits (w +:+ "/") sub ->
  new_tmpdir (w +:+ "/") sub = Some ((w +:+ "/") +:+ sub +:+ "/").
Proof.
  intros Hfit. apply new_tmpdir_with_slash; [exact Hfit |].
  apply (has_trailing_slash_last w "/"), (fits_strlen _ _ Hfit).
Qed.


(** ** Reading the traces of both sources *)

Lemma omap_cons {A B} (f : A -> option B) x l :
  omap f (x :: l)
  = match f x with Some y => y :: omap f l | None => omap f l end.
Proof. reflexivity. Qed.

(** Whatever is read off a trace without looking at the printed lines is
    the same with and without the diagnostic line. *)
Lemma omap_diagnose {A} (f : Event -> option A) tr :
  (forall text, f (EvPrintf text) = None) ->
  omap f (diagnose tr) = omap f tr.
Proof.
  intros Hf. induction tr as [| e tr IH]; [reflexivity |].
  destruct e; cbn [diagnose]; rewrite ?omap_cons, ?Hf, IH; reflexivity.
Qed.

Lemma calls_diagnose tr : calls (diagnose tr) = calls tr.
Proof. by apply omap_diagnose. Qed.

Lemma trace_of_result o s (tr : list Event) : trace_of (o, s, tr) = tr.
Proof. reflexivity. Qed.

(** Both routines give the same outcome and final state, and the same
    reading of their trace as long as printed lines are not looked at. *)
Lemma either_source (body : string -> Callback -> M unit) sub_dir_name func s :
  body = Hook.set_temporary_tmpdir \/ body = Indirect.set_temporary_tmpdir ->
  outcome_of (run (body sub_dir_name func) s)
  = outcome_of (run (Hook.set_temporary_tmpdir sub_dir_name func) s) /\
  final (run (body sub_dir_name func) s)
  = final (run (Hook.set_temporary_tmpdir sub_dir_name func) s) /\
  forall A (f : Event -> option A),
    (forall text, f (EvPrintf text) = None) ->
    omap f (trace_of (run (body sub_dir_name func) s))
    = omap f (trace_of (run (Hook.set_temporary_tmpdir sub_dir_name func) s)).
Proof.
  intros [-> | ->]; [done |].
  rewrite Indirect_diagnoses. repeat split.
  intros A f Hf. unfold trace_of at 1. simpl. by apply omap_diagnose.
Qed.

Lemma pid_after_mkdir s path mode : pid (after_mkdir s path mode) = pid s.
Proof. unfold after_mkdir. destruct (mkdir_result s path); reflexivity. Qed.

Lemma pid_after_setenv s name value : pid (after_setenv s name value) = pid s.
Proof. unfold after_setenv. destruct (setenv_fault s name value); reflexivity. Qed.

Lemma env_after_setenv_failed s name value e :
  setenv_fault s name value = Some e -> env (after_setenv s name value) = env s.
Proof. unfold after_setenv. intros ->. reflexivity. Qed.

Lemma env_after_setenv_other s name value other :
  other <> name ->
  env (after_setenv s name value) !! other = env s !! other.
Proof.
  intros Hne. unfold after_setenv.
  destruct (setenv_fault s name value); simpl; [reflexivity |].
  by apply lookup_insert_ne.
Qed.

Lemma dirs_after_mkdir_keeps s path mode other :
  is_Some (dirs s !! other) -> is_Some (dirs (after_mkdir s path mode) !! other).
Proof.
  intros Hsome. unfold after_mkdir.
  destruct (mkdir_result s path); simpl; [exact Hsome |].
  destruct (decide (path = other)) as [-> | Hne].
  - rewrite lookup_insert_eq. by eexists.
  - by rewrite lookup_insert_ne.
Qed.

(** What a run of the hook's routine creates, shows to the callback and
    assigns, in terms of the content of its buffer. *)
Lemma Hook_uses_new_tmpdir sub_dir_name func s v p :
  tmpdir s = Some v ->
  new_tmpdir v sub_dir_name = Some p ->
  (forall path,
     path ∈ mkdir_paths
              (trace_of (run (Hook.set_temporary_tmpdir sub_dir_name func) s)) ->
     path = p) /\
  (forall seen,
     seen ∈ tmpdir_seen
              (trace_of (run (Hook.set_temporary_tmpdir sub_dir_name func) s)) ->
     seen = Some p) /\
  (forall name value,
     (name, value) ∈ assigned
        (trace_of (run (Hook.set_temporary_tmpdir sub_dir_name func) s)) ->
     name = "TMPDIR" /\ (value = p \/ value = v)).
Proof.
  intros Hset Hp. split; [| split].
  - paths sub_dir_name func s; simpl; intros path Hin;
      decompose_list_elem_of; simplify_eq; congruence.
  - intros seen Hseen.
    rewrite (callback_sees_new_tmpdir _ _ _ _ Hset _ Hseen). exact Hp.
  - paths sub_dir_name func s; simpl; intros name value Hin;
      repeat case_match; simpl in *;
      decompose_list_elem_of; simplify_eq; split; try done;
      try (left; congruence); try (by right).
    destruct (held s'); simplify_eq/=; auto.
Qed.

(** ** The path that is created and handed to the callback *)





(** ** Defined and undefined behaviour *)

(** X3. For a value of TMPDIR and a subdirectory name that fit the address
    space, the routine (of either source file) runs into undefined
    behaviour in two cases and in no other: when TMPDIR is the empty
    string, where the separator test reads before the string; and when the
    callback returns with the string behind the saved pointer released,
    where the restoring assignment reads that string. *)
Theorem X3_undefined_behaviour_exactly_when sub_dir_name func s v :
  tmpdir s = Some v ->
  fits v sub_dir_name ->
  (outcome_of (run (Hook.set_temporary_tmpdir sub_dir_name func) s) = Undefined
   <->
   v = "" \/
   exists c s',
     c ∈ calls (trace_of (run (Hook.set_temporary_tmpdir sub_dir_name func) s))
     /\ func c = CbReturn s' /\ held s' = Released) /\
  (outcome_of (run (Indirect.set_temporary_tmpdir sub_dir_name func) s)
   = Undefined
   <->
   v = "" \/
   exists c s',
     c ∈ calls (trace_of
                  (run (Indirect.set_temporary_tmpdir sub_dir_name func) s))
     /\ func c = CbReturn s' /\ held s' = Released).
Proof.
  intros Hset Hfit.
  assert (Hhook :
    outcome_of (run (Hook.set_temporary_tmpdir sub_dir_name func) s) = Undefined
    <->
    v = "" \/
    exists c s',
      c ∈ calls (trace_of (run (Hook.set_temporary_tmpdir sub_dir_name func) s))
      /\ func c = CbReturn s' /\ held s' = Released).
  { pose proof (has_trailing_slash_defined v (fits_strlen _ _ Hfit)) as Hdef.
    assert (Hbuf : forall slash, has_trailing_slash v = Some slash ->
                                 new_tmpdir v sub_dir_name <> None).
    { intros [|] Hslash.
      - by rewrite new_tmpdir_with_slash.
      - by rewrite new_tmpdir_without_slash. }
    assert (Hfull : forall slash, has_trailing_slash v = Some slash -> v <> "").
    { intros slash Hslash. apply Hdef. by eexists. }
    paths sub_dir_name func s; simplify_eq; simpl.
    - split; [intros _ | done]. left.
      destruct (decide (v = "")) as [-> | Hne]; [done |].
      apply Hdef in Hne. destruct Hne as [? ?]. congruence.
    - split; [discriminate |].
      intros [-> | (c & s' & Hin & _)];
        [by edestruct Hfull | by decompose_list_elem_of].
    - by edestruct Hbuf.
    - split; [discriminate |].
      intros [-> | (c & s' & Hin & _)];
        [by edestruct Hfull | by decompose_list_elem_of].
    - split; [discriminate |].
      intros [-> | (c & s' & Hin & _)];
        [by edestruct Hfull | by decompose_list_elem_of].
    - split; [discriminate |].
      intros [-> | (c & s' & Hin & Hret & _)]; [by edestruct Hfull |].
      decompose_list_elem_of. congruence.
    - split; [intros _ | done]. right.
      eexists _, _. split; [apply list_elem_of_here |]. split; [eassumption |].
      match goal with
      | H : pointee (held ?a) _ _ = None |- _ => by destruct (held a)
      end.
    - split; [discriminate |].
      intros [-> | (c & s1 & Hin & Hret & Hrel)]; [by edestruct Hfull |].
      decompose_list_elem_of. subst c.
      assert (s1 = s') as -> by congruence.
      match goal with
      | H : pointee _ _ _ = Some _ |- _ => by rewrite Hrel in H
      end. }
  split; [exact Hhook |].
  by rewrite Indirect_diagnoses, trace_of_result, calls_diagnose.
Qed.

Lemma X3_undefined_behaviour_exactly_when_witness :
  tmpdir (with_tmpdir "/var/tmp") = Some "/var/tmp" /\
  fits "/var/tmp" "sampler" /\
  outcome_of (run (Indirect.set_temporary_tmpdir "sampler" throws)
                  (with_tmpdir "/var/tmp")) <> Undefined.
Proof.
  split; [reflexivity |]. split; [reflexivity |].
  destruct (X3_undefined_behaviour_exactly_when
              "sampler" throws (with_tmpdir "/var/tmp") "/var/tmp")
    as [_ [Honly _]]; [reflexivity | reflexivity |].
  intros Hundefined.
  destruct (Honly Hundefined) as [Hempty | (c & s' & _ & Hret & _)];
    discriminate.
Defined.

(** ** When the callback runs *)

(** X4. As long as reading the value of TMPDIR and filling the buffer are
    defined (TMPDIR is unset, or its value is not empty and the sizes fit),
    the callback is invoked exactly when TMPDIR is set, the buffer is
    allocated, the directory is created or answers "already exists", and
    the redirecting assignment succeeds. *)
Theorem X4_callback_invoked_exactly_when sub_dir_name func s :
  (forall v, tmpdir s = Some v -> is_Some (new_tmpdir v sub_dir_name)) ->
  callback_invoked
    (trace_of (run (Hook.set_temporary_tmpdir sub_dir_name func) s)) = true
  <->
  exists v slash p,
    tmpdir s = Some v /\
    has_trailing_slash v = Some slash /\
    malloc_ok s (new_tmpdir_len v sub_dir_name slash) = true /\
    new_tmpdir v sub_dir_name = Some p /\
    (mkdir_result s p = None \/ mkdir_result s p = Some EEXIST) /\
    setenv_fault s "TMPDIR" p = None.
Proof.
  intros _. split.
  - paths sub_dir_name func s; simpl; intros Hcall; try discriminate;
      eexists _, _, _; repeat split; eassumption.
  - intros (v & slash & p & Hset & Hslash & Hmem & Hp & Hdir & Hassign).
    destruct (Hook_reaches_callback sub_dir_name func s v slash p)
      as [rest ->]; done.
Qed.

Lemma X4_callback_invoked_exactly_when_witness :
  (forall v, tmpdir (with_tmpdir "/var/tmp/") = Some v ->
             is_Some (new_tmpdir v "sampler")) /\
  callback_invoked
    (trace_of (run (Hook.set_temporary_tmpdir "sampler" throws)
                   (with_tmpdir "/var/tmp/"))) = true.
Proof.
  assert (Hdefined : forall v, tmpdir (with_tmpdir "/var/tmp/") = Some v ->
                               is_Some (new_tmpdir v "sampler")).
  { intros v [= <-]. by eexists. }
  split; [exact Hdefined |].
  apply (X4_callback_invoked_exactly_when
           "sampler" throws (with_tmpdir "/var/tmp/") Hdefined).
  exists "/var/tmp/", true, "/var/tmp/sampler/".
  repeat split. by left.
Defined.

(** X5. In one call of the routine (of either source file) the callback is
    invoked at most once. *)
Theorem X5_callback_invoked_at_most_once sub_dir_name func s :
  (length (calls (trace_of
     (run (Hook.set_temporary_tmpdir sub_dir_name func) s))) <= 1)%nat /\
  (length (calls (trace_of
     (run (Indirect.set_temporary_tmpdir sub_dir_name func) s))) <= 1)%nat.
Proof.
  assert (Hhook : (length (calls (trace_of
     (run (Hook.set_temporary_tmpdir sub_dir_name func) s))) <= 1)%nat).
  { paths sub_dir_name func s; simpl; lia. }
  split; [exact Hhook |].
  rewrite Indirect_diagnoses. unfold trace_of at 1. simpl.
  by rewrite calls_diagnose.
Qed.

(** ** What the routine leaves alone *)

(** X6. The routine assigns no variable but TMPDIR, and this at most
    twice. Every other variable has, when the callback starts, the value it
    had at entry, and when the routine returns after the callback, the
    value that the callback left. *)
Theorem X6_only_TMPDIR_is_assigned sub_dir_name func s :
  (forall name,
     name ∈ setenv_names
              (trace_of (run (Hook.set_temporary_tmpdir sub_dir_name func) s)) ->
     name = "TMPDIR") /\
  (length (setenv_names
     (trace_of (run (Hook.set_temporary_tmpdir sub_dir_name func) s))) <= 2)%nat /\
  (forall c name,
     c ∈ calls (trace_of (run (Hook.set_temporary_tmpdir sub_dir_name func) s)) ->
     name <> "TMPDIR" ->
     env c !! name = env s !! name) /\
  (forall c s' name,
     c ∈ calls (trace_of (run (Hook.set_temporary_tmpdir sub_dir_name func) s)) ->
     func c = CbReturn s' ->
     name <> "TMPDIR" ->
     env (final (run (Hook.set_temporary_tmpdir sub_dir_name func) s)) !! name
     = env s' !! name).
Proof.
  paths sub_dir_name func s; simpl; repeat split;
    try (intros name Hin; by decompose_list_elem_of);
    try lia;
    try (intros c name Hin Hne; decompose_list_elem_of; simplify_eq;
         rewrite env_after_setenv_other by done;
         by rewrite env_after_mkdir);
    intros c s1 name Hin Hret Hne; decompose_list_elem_of; subst c;
    try congruence.
  match goal with
  | H : func _ = CbReturn ?a |- _ => assert (s1 = a) as -> by congruence
  end.
  by apply env_after_setenv_other.
Qed.

(** X7. When the redirecting assignment fails, the routine returns without
    invoking the callback and with the environment as it was at entry; the
    directory it has just created is left in place, with the permission
    bits of 0700 that the file mode creation mask at entry does not
    withhold, and no directory that existed at entry is lost. *)
Theorem X7_failed_redirection_leaves_directory sub_dir_name func s :
  assignments_succeed
    (trace_of (run (Hook.set_temporary_tmpdir sub_dir_name func) s)) = false ->
  callback_invoked
    (trace_of (run (Hook.set_temporary_tmpdir sub_dir_name func) s)) = false ->
  outcome_of (run (Hook.set_temporary_tmpdir sub_dir_name func) s) = Returned /\
  env (final (run (Hook.set_temporary_tmpdir sub_dir_name func) s)) = env s /\
  (forall path,
     path ∈ created
              (trace_of (run (Hook.set_temporary_tmpdir sub_dir_name func) s)) ->
     dirs (final (run (Hook.set_temporary_tmpdir sub_dir_name func) s)) !! path
     = Some (Z.ldiff mode_0700 (umask s))) /\
  (forall path,
     is_Some (dirs s !! path) ->
     is_Some (dirs (final (run (Hook.set_temporary_tmpdir sub_dir_name func) s))
                !! path)).
Proof.
  paths sub_dir_name func s; simpl; intros Hassign Hcall; try discriminate.
  split; [reflexivity |].
  match goal with
  | H : setenv_fault s "TMPDIR" p = Some _ |- _ =>
      rewrite <- (setenv_fault_after_mkdir s p mode_0700) in H;
      rewrite (env_after_setenv_failed _ _ _ _ H)
  end.
  rewrite env_after_mkdir, dirs_after_setenv.
  split; [reflexivity |]. split.
  - intros path Hin.
    destruct (mkdir_result s p) as [refused |] eqn:Hr; simpl in Hin;
      decompose_list_elem_of.
    subst path. by apply dirs_after_mkdir_created.
  - intros path. apply dirs_after_mkdir_keeps.
Qed.

Lemma X7_failed_redirection_leaves_directory_witness :
  assignments_succeed
    (trace_of (run (Hook.set_temporary_tmpdir "sampler" returns)
                   (frozen "/var/tmp/"))) = false /\
  callback_invoked
    (trace_of (run (Hook.set_temporary_tmpdir "sampler" returns)
                   (frozen "/var/tmp/"))) = false /\
  env (final (run (Hook.set_temporary_tmpdir "sampler" returns)
                  (frozen "/var/tmp/"))) = env (frozen "/var/tmp/") /\
  (forall path,
     path ∈ created
              (trace_of (run (Hook.set_temporary_tmpdir "sampler" returns)
                             (frozen "/var/tmp/"))) ->
     dirs (final (run (Hook.set_temporary_tmpdir "sampler" returns)
                      (frozen "/var/tmp/"))) !! path
     = Some (Z.ldiff mode_0700 (umask (frozen "/var/tmp/")))).
Proof.
  split; [reflexivity |]. split; [reflexivity |].
  destruct (X7_failed_redirection_leaves_directory
              "sampler" returns (frozen "/var/tmp/"))
    as (_ & Henv & Hleft & _); [reflexivity | reflexivity |].
  split; [exact Henv | exact Hleft].
Defined.

(** X8. When the callback starts, the directories are those of the entry
    of the routine, with at most one more: either nothing was created and
    they are unchanged (the directory was there, with the permission bits
    it had), or exactly one directory was created, which did not exist, and
    it has the permission bits of 0700 that the file mode creation mask at
    entry does not withhold. *)
Theorem X8_directories_when_callback_starts sub_dir_name func s c :
  c ∈ calls (trace_of (run (Hook.set_temporary_tmpdir sub_dir_name func) s)) ->
  (created (trace_of (run (Hook.set_temporary_tmpdir sub_dir_name func) s)) = []
   /\ dirs c = dirs s)
  \/
  (exists p,
     created (trace_of (run (Hook.set_temporary_tmpdir sub_dir_name func) s))
     = [p] /\
     dirs s !! p = None /\
     dirs c = <[p := Z.ldiff mode_0700 (umask s)]> (dirs s)).
Proof.
  assert (Hstep : forall p,
            mkdir_result s p = None \/ mkdir_result s p = Some EEXIST ->
            (created [EvMkdir p mode_0700 (mkdir_result s p)] = []
             /\ dirs (after_mkdir s p mode_0700) = dirs s)
            \/
            (created [EvMkdir p mode_0700 (mkdir_result s p)] = [p]
             /\ dirs s !! p = None
             /\ dirs (after_mkdir s p mode_0700)
                = <[p := Z.ldiff mode_0700 (umask s)]> (dirs s))).
  { intros p [Hr | Hr].
    - right. unfold after_mkdir. rewrite Hr. repeat split.
      unfold mkdir_result in Hr. by destruct (dirs s !! p).
    - left. rewrite Hr. split; [reflexivity |].
      by apply (dirs_after_mkdir_refused s p mode_0700 EEXIST). }
  paths sub_dir_name func s; simpl; intros Hin;
    decompose_list_elem_of; subst c; rewrite dirs_after_setenv.
  - destruct (Hstep p) as [[Hc Hd] | (Hc & Hn & Hd)]; [done | left | right];
      [| exists p]; simpl in Hc |- *;
      destruct (mkdir_result s p) as [[]|]; simplify_eq; done.
  - destruct (Hstep p) as [[Hc Hd] | (Hc & Hn & Hd)]; [done | left | right];
      [| exists p]; simpl in Hc |- *;
      destruct (mkdir_result s p) as [[]|]; simplify_eq; done.
  - destruct (Hstep p) as [[Hc Hd] | (Hc & Hn & Hd)]; [done | left | right];
      [| exists p]; simpl in Hc |- *;
      destruct (mkdir_result s p) as [[]|]; simplify_eq; done.
Qed.

Lemma X8_directories_when_callback_starts_witness :
  after_setenv (after_mkdir (masked "/var/tmp/") "/var/tmp/sampler/"
                            mode_0700)
               "TMPDIR" "/var/tmp/sampler/"
  ∈ calls (trace_of (run (Hook.set_temporary_tmpdir "sampler" returns)
                         (masked "/var/tmp/"))) /\
  exists p,
    created (trace_of (run (Hook.set_temporary_tmpdir "sampler" returns)
                           (masked "/var/tmp/"))) = [p] /\
    dirs (after_setenv (after_mkdir (masked "/var/tmp/")
                                    "/var/tmp/sampler/" mode_0700)
                       "TMPDIR" "/var/tmp/sampler/")
    = <[p := Z.ldiff mode_0700 (umask (masked "/var/tmp/"))]>
        (dirs (masked "/var/tmp/")).
Proof.
  assert (Hin :
    after_setenv (after_mkdir (masked "/var/tmp/") "/var/tmp/sampler/"
                              mode_0700)
                 "TMPDIR" "/var/tmp/sampler/"
    ∈ calls (trace_of (run (Hook.set_temporary_tmpdir "sampler" returns)
                           (masked "/var/tmp/")))).
  { apply list_elem_of_here. }
  split; [exact Hin |].
  destruct (X8_directories_when_callback_starts _ _ _ _ Hin)
    as [[Hnone _] | (p & Hp & _ & Hdirs)]; [discriminate Hnone |].
  exists p. split; [exact Hp | exact Hdirs].
Defined.

(** ** What the indirect variant prints *)

Lemma printed_diagnose tr :
  printed tr = [] -> printed (diagnose tr) = diagnostic <$> calls tr.
Proof.
  unfold printed, calls.
  induction tr as [| e tr IH]; [reflexivity |].
  destruct e; cbn [diagnose]; rewrite !omap_cons; try discriminate;
    intros Hquiet; rewrite ?omap_cons, ?fmap_cons, IH by exact Hquiet;
    reflexivity.
Qed.

(** X9. The routine of the hook prints nothing. The indirect variant
    prints one line for each invocation of the callback and nothing else,
    so nothing at all when it gives up before the callback; the line reads
    "Current Process pid: ", the process id in decimal, " tmpdir: ", the
    content of the buffer (the redirected value of TMPDIR, not the
    original one) and a line feed. *)
Theorem X9_indirect_prints_redirected_value sub_dir_name func s v :
  tmpdir s = Some v ->
  printed (trace_of (run (Hook.set_temporary_tmpdir sub_dir_name func) s))
  = [] /\
  length (printed (trace_of
            (run (Indirect.set_temporary_tmpdir sub_dir_name func) s)))
  = length (calls (trace_of
              (run (Indirect.set_temporary_tmpdir sub_dir_name func) s))) /\
  forall text,
    text ∈ printed (trace_of
                      (run (Indirect.set_temporary_tmpdir sub_dir_name func) s))
    ->
    exists p,
      new_tmpdir v sub_dir_name = Some p /\
      text = "Current Process pid: " +:+ decimal (pid s) +:+
             " tmpdir: " +:+ p +:+ newline.
Proof.
  intros Hset.
  rewrite Indirect_diagnoses, !trace_of_result.
  assert (Hquiet :
    printed (trace_of (run (Hook.set_temporary_tmpdir sub_dir_name func) s))
    = []).
  { paths sub_dir_name func s; reflexivity. }
  rewrite calls_diagnose, (printed_diagnose _ Hquiet), Hquiet, length_fmap.
  split; [reflexivity |]. split; [reflexivity |].
  intros text Hin. apply list_elem_of_fmap in Hin as (c & -> & Hc).
  assert (Hseen : tmpdir c = new_tmpdir v sub_dir_name).
  { apply (callback_sees_new_tmpdir sub_dir_name func s v Hset).
    unfold tmpdir_seen. unfold calls in Hc.
    apply list_elem_of_omap in Hc as (e & He & Hcall).
    apply list_elem_of_omap. exists e. split; [exact He |].
    destruct e; simplify_eq. reflexivity. }
  assert (Hpid : pid c = pid s).
  { revert Hc. clear.
    paths sub_dir_name func s; simpl; intros Hin;
      decompose_list_elem_of; subst c;
      by rewrite pid_after_setenv, pid_after_mkdir. }
  destruct (new_tmpdir v sub_dir_name) as [p |] eqn:Hp.
  - exists p. split; [reflexivity |].
    unfold diagnostic. rewrite Hseen, Hpid. reflexivity.
  - exfalso. revert Hc Hp. clear -Hset.
    paths sub_dir_name func s; simpl; intros Hin Hp;
      decompose_list_elem_of; congruence.
Qed.

Lemma X9_indirect_prints_redirected_value_witness :
  tmpdir (with_tmpdir "/var/tmp/") = Some "/var/tmp/" /\
  printed (trace_of (run (Hook.set_temporary_tmpdir "sampler" returns)
                         (with_tmpdir "/var/tmp/"))) = [] /\
  length (printed (trace_of
            (run (Indirect.set_temporary_tmpdir "sampler" returns)
                 (with_tmpdir "/var/tmp/"))))
  = length (calls (trace_of
              (run (Indirect.set_temporary_tmpdir "sampler" returns)
                   (with_tmpdir "/var/tmp/")))).
Proof.
  split; [reflexivity |].
  destruct (X9_indirect_prints_redirected_value
              "sampler" returns (with_tmpdir "/var/tmp/") "/var/tmp/")
    as (Hquiet & Hcount & _); [reflexivity |].
  split; [exact Hquiet | exact Hcount].
Defined.

(** ** Loading the module *)

(** X10. Let TMPDIR end in a separator, the directory ".ultra/" under it
    not exist yet, the allocation, the directory creation and the two
    assignments succeed, and the string behind the saved pointer be intact
    when the sampler returns. Then [ultra_sampler_boot] creates that
    directory with the permission bits of 0700 that the file mode creation
    mask does not withhold, starts the sampler once with TMPDIR set to it,
    and, the sampler having returned, returns with TMPDIR set to its
    original value and every other variable as the sampler left it. The
    indirect variant ends in the same way and in the same state. *)
Theorem X10_boot_redirects_and_restores ultra_sampler_start s w s' :
  tmpdir s = Some (w +:+ "/") ->
  fits (w +:+ "/") ".ultra" ->
  malloc_ok s (strlen (w +:+ "/") + 8) = true ->
  dirs s !! ultra_dir w = None ->
  mkdir_fault s (ultra_dir w) = None ->
  setenv_fault s "TMPDIR" (ultra_dir w) = None ->
  ultra_sampler_start (redirected s (ultra_dir w)) = CbReturn s' ->
  held s' = Intact ->
  setenv_fault s' "TMPDIR" (w +:+ "/") = None ->
  run (Hook.ultra_sampler_boot ultra_sampler_start) s
  = (Returned,
     with_held (setenv_keeps s' "TMPDIR" (w +:+ "/"))
               (with_env (<["TMPDIR" := w +:+ "/"]> (env s')) s'),
     [EvMalloc (strlen (w +:+ "/") + 8) true;
      EvMkdir (ultra_dir w) mode_0700 None;
      EvSetenv "TMPDIR" (ultra_dir w) true;
      EvCall (redirected s (ultra_dir w));
      EvSetenv "TMPDIR" (w +:+ "/") true]) /\
  dirs (redirected s (ultra_dir w)) !! ultra_dir w
  = Some (Z.ldiff mode_0700 (umask s)) /\
  tmpdir (redirected s (ultra_dir w)) = Some (ultra_dir w) /\
  outcome_of (run (Indirect.ultra_sampler_boot ultra_sampler_start) s)
  = Returned /\
  final (run (Indirect.ultra_sampler_boot ultra_sampler_start) s)
  = with_held (setenv_keeps s' "TMPDIR" (w +:+ "/"))
              (with_env (<["TMPDIR" := w +:+ "/"]> (env s')) s').
Proof.
  intros Hset Hfit Hmem Hnew Hfault Hassign Hstart Hintact Hrestore.
  assert (Hslash : has_trailing_slash (w +:+ "/") = Some true).
  { apply (has_trailing_slash_last w "/"), (fits_strlen _ _ Hfit). }
  assert (Hlen : new_tmpdir_len (w +:+ "/") ".ultra" true
                 = strlen (w +:+ "/") + 8).
  { rewrite (new_tmpdir_len_fits _ _ true Hfit).
    change (strlen ".ultra") with 6. lia. }
  assert (Hp : new_tmpdir (w +:+ "/") ".ultra" = Some (ultra_dir w)).
  { by rewrite new_tmpdir_ends_with_slash. }
  assert (Hr : mkdir_result s (ultra_dir w) = None).
  { unfold mkdir_result. by rewrite Hnew. }
  assert (Hc : after_setenv (after_mkdir s (ultra_dir w) mode_0700)
                 "TMPDIR" (ultra_dir w) = redirected s (ultra_dir w)).
  { unfold after_setenv, after_mkdir. rewrite Hr. simpl.
    by rewrite Hassign. }
  assert (Hhook :
    run (Hook.ultra_sampler_boot ultra_sampler_start) s
    = (Returned,
       with_held (setenv_keeps s' "TMPDIR" (w +:+ "/"))
                 (with_env (<["TMPDIR" := w +:+ "/"]> (env s')) s'),
       [EvMalloc (strlen (w +:+ "/") + 8) true;
        EvMkdir (ultra_dir w) mode_0700 None;
        EvSetenv "TMPDIR" (ultra_dir w) true;
        EvCall (redirected s (ultra_dir w));
        EvSetenv "TMPDIR" (w +:+ "/") true])).
  { unfold Hook.ultra_sampler_boot.
    destruct (Hook_completes ".ultra" ultra_sampler_start s
                (w +:+ "/") true (ultra_dir w) s') as [-> _];
      rewrite ?Hlen, ?Hc; try done; [by left |].
    rewrite Hr. unfold after_setenv. by rewrite Hrestore. }
  split; [exact Hhook |].
  split; [apply lookup_insert_eq |]. split; [apply lookup_insert_eq |].
  unfold Indirect.ultra_sampler_boot. rewrite Indirect_diagnoses.
  unfold Hook.ultra_sampler_boot in Hhook. rewrite Hhook. by split.
Qed.

Lemma X10_boot_redirects_and_restores_witness :
  tmpdir (masked "/var/tmp/") = Some ("/var/tmp" +:+ "/") /\
  dirs (masked "/var/tmp/") !! ultra_dir "/var/tmp" = None /\
  run (Hook.ultra_sampler_boot returns) (masked "/var/tmp/")
  = (Returned,
     with_held (setenv_keeps (redirected (masked "/var/tmp/")
                                         (ultra_dir "/var/tmp"))
                             "TMPDIR" ("/var/tmp" +:+ "/"))
       (with_env (<["TMPDIR" := "/var/tmp" +:+ "/"]>
                    (env (redirected (masked "/var/tmp/")
                                     (ultra_dir "/var/tmp"))))
                 (redirected (masked "/var/tmp/") (ultra_dir "/var/tmp"))),
     [EvMalloc (strlen ("/var/tmp" +:+ "/") + 8) true;
      EvMkdir (ultra_dir "/var/tmp") mode_0700 None;
      EvSetenv "TMPDIR" (ultra_dir "/var/tmp") true;
      EvCall (redirected (masked "/var/tmp/") (ultra_dir "/var/tmp"));
      EvSetenv "TMPDIR" ("/var/tmp" +:+ "/") true]) /\
  dirs (redirected (masked "/var/tmp/") (ultra_dir "/var/tmp"))
    !! ultra_dir "/var/tmp"
  = Some (Z.ldiff mode_0700 (umask (masked "/var/tmp/"))).
Proof.
  split; [reflexivity |]. split; [reflexivity |].
  destruct (X10_boot_redirects_and_restores returns (masked "/var/tmp/")
              "/var/tmp"
              (redirected (masked "/var/tmp/") (ultra_dir "/var/tmp")))
    as (Hrun & Hdir & _); try reflexivity.
  split; [exact Hrun | exact Hdir].
Defined.

(** ** An empty subdirectory name *)

Lemma new_tmpdir_empty_name w c :
  c <> "/"%char ->
  fits (w +:+ char c) "" ->
  new_tmpdir (w +:+ char c) "" = Some (w +:+ char c).
Proof.
  intros Hc Hfit.
  rewrite new_tmpdir_without_slash; [| exact Hfit |]; cycle 1.
  { rewrite (has_trailing_slash_last w c (fits_strlen _ _ Hfit)).
    f_equal. by apply Ascii.eqb_neq. }
  f_equal.
  rewrite (str_take_append (w +:+ char c) ("/" +:+ "" +:+ "/")
             (String.length "")).
  apply append_empty_r.
Qed.

(** X11. With an empty subdirectory name and a value of TMPDIR that does
    not end in a separator, the buffer holds the original value and
    nothing more: the directory creation is attempted at the temporary
    directory itself, and the callback finds TMPDIR as it was at entry. *)
Theorem X11_empty_name_redirects_nowhere
    (body : string -> Callback -> M unit) func s w c :
  body = Hook.set_temporary_tmpdir \/ body = Indirect.set_temporary_tmpdir ->
  tmpdir s = Some (w +:+ char c) ->
  c <> "/"%char ->
  fits (w +:+ char c) "" ->
  (forall path,
     path ∈ mkdir_paths (trace_of (run (body "" func) s)) ->
     path = w +:+ char c) /\
  (forall seen,
     seen ∈ tmpdir_seen (trace_of (run (body "" func) s)) ->
     seen = tmpdir s).
Proof.
  intros Hbody Hset Hc Hfit.
  destruct (either_source body "" func s Hbody) as (_ & _ & Hread).
  unfold mkdir_paths, tmpdir_seen. rewrite !Hread by done.
  destruct (Hook_uses_new_tmpdir "" func s _ _ Hset
              (new_tmpdir_empty_name w c Hc Hfit)) as (Hpath & Hseen & _).
  split; [exact Hpath |]. by rewrite Hset.
Qed.

Lemma X11_empty_name_redirects_nowhere_witness :
  tmpdir (with_tmpdir "/var/tmp") = Some ("/var/tm" +:+ char "p") /\
  "p"%char <> "/"%char /\
  fits ("/var/tm" +:+ char "p") "" /\
  (forall seen,
     seen ∈ tmpdir_seen
              (trace_of (run (Hook.set_temporary_tmpdir "" returns)
                             (with_tmpdir "/var/tmp"))) ->
     seen = tmpdir (with_tmpdir "/var/tmp")).
Proof.
  split; [reflexivity |]. split; [discriminate |]. split; [reflexivity |].
  apply (X11_empty_name_redirects_nowhere Hook.set_temporary_tmpdir
           returns (with_tmpdir "/var/tmp") "/var/tm" "p");
    [by left | reflexivity | discriminate | reflexivity].
Defined.
